(** * CV-Mailer: a shallow embedding of [code_sender.py] and [app.py]

    The Flask handlers [send_emails], [send_single_email] and [test_email]
    of [app.py] and the helpers [create_greeting], [build_message] and
    [send_one] of [code_sender.py] are modelled as functions.  The parts of
    the Python standard library the code relies on and whose behaviour
    matters here ([str.strip], [base64.b64decode], [base64.encodebytes],
    the [email.mime] constructors and [Message.get_payload(decode=True)])
    are modelled after their CPython 3.11 implementation.

    Text is [String.string]: its characters are the code points
    U+0000..U+00FF.  Binary data is [list Byte.byte]. *)

From Stdlib Require Import String Ascii List ZArith QArith Bool Lia.
Import ListNotations.
Close Scope Q_scope.
Set Warnings "-register-all".
Open Scope string_scope.
Open Scope nat_scope.

(* ------------------------------------------------------------------ *)
(** ** Python strings *)

Module PyStr.

(** [str.isspace] on U+0000..U+00FF: \t \n \v \f \r, the four
    separators U+001C..U+001F, the space, U+0085 and U+00A0. *)
Definition is_space (c : ascii) : bool :=
  let n := nat_of_ascii c in
  ((9 <=? n) && (n <=? 13)) || ((28 <=? n) && (n <=? 32))
  || (n =? 133) || (n =? 160).

Fixpoint drop_space (l : list ascii) : list ascii :=
  match l with
  | [] => []
  | c :: r => if is_space c then drop_space r else l
  end.

(** [str.strip()] with no argument. *)
Definition strip (s : string) : string :=
  string_of_list_ascii
    (rev (drop_space (rev (drop_space (list_ascii_of_string s))))).

(** Truthiness of a [str]: [if s:] holds for a non-empty string. *)
Definition truthy (s : string) : bool :=
  match s with EmptyString => false | _ => true end.

(** [dict.get(key, default)] on a field holding a string. *)
Definition get (o : option string) (default : string) : string :=
  match o with Some v => v | None => default end.

(** Decimal rendering of a non-negative [int], as by [str(n)]. *)
Fixpoint digits (fuel n : nat) (acc : string) : string :=
  match fuel with
  | O => acc
  | S f =>
      let acc' := String (ascii_of_nat (48 + n mod 10)) acc in
      if n <? 10 then acc' else digits f (n / 10) acc'
  end.

Definition of_nat (n : nat) : string := digits (S n) n "".

End PyStr.

(* ------------------------------------------------------------------ *)
(** ** Recipients and the greeting ([code_sender.create_greeting]) *)

(** A recipient object of the request, [{email, company?}]: [None] is an
    absent key. *)
Record Recipient := mkRecipient {
  email : option string;
  company : option string
}.

(** [create_greeting]:
<<
    company = recipient.get("company", "").strip()
    if company:
        return f"{company} Hiring Team"
    return "Hiring Team"
>> *)
Definition create_greeting (recipient : Recipient) : string :=
  let company := PyStr.strip (PyStr.get recipient.(company) "") in
  if PyStr.truthy company then company ++ " Hiring Team"
  else "Hiring Team".

(* ------------------------------------------------------------------ *)
(** ** Base64 ([binascii], [base64.encodebytes], [email._encoded_words]) *)

Module B64.
Local Open Scope Z_scope.

Definition zb (b : Byte.byte) : Z := Z.of_N (Byte.to_N b).

(** A store into an [unsigned char]: truncation modulo 256. *)
Definition bz (z : Z) : Byte.byte :=
  match Byte.of_N (Z.to_N (z mod 256)) with Some b => b | None => Byte.x00 end.

(** [table_b2a_base64]. *)
Definition b64_char (v : Z) : ascii :=
  ascii_of_N (Z.to_N
    (if v <? 26 then 65 + v
     else if v <? 52 then 71 + v
     else if v <? 62 then v - 4
     else if v =? 62 then 43 else 47)).

(** [table_a2b_base64]: 255 for a character outside the alphabet. *)
Definition table_a2b (c : ascii) : Z :=
  let n := Z.of_N (N_of_ascii c) in
  if (65 <=? n) && (n <=? 90) then n - 65
  else if (97 <=? n) && (n <=? 122) then n - 71
  else if (48 <=? n) && (n <=? 57) then n + 4
  else if n =? 43 then 62
  else if n =? 47 then 63
  else 255.

Definition pad : ascii := "="%char.
Definition newline : ascii := "010"%char.

(** The four sextets of a complete group of three bytes. *)
Definition sx0 (a : Byte.byte) : Z := Z.shiftr (zb a) 2.
Definition sx1 (a b : Byte.byte) : Z :=
  Z.lor (Z.shiftl (Z.land (zb a) 3) 4) (Z.shiftr (zb b) 4).
Definition sx2 (b c : Byte.byte) : Z :=
  Z.lor (Z.shiftl (Z.land (zb b) 15) 2) (Z.shiftr (zb c) 6).
Definition sx3 (c : Byte.byte) : Z := Z.land (zb c) 63.

(** The body of [binascii.b2a_base64]: groups of three bytes, the last
    group padded with one or two [=]. *)
Fixpoint b64_groups (bs : list Byte.byte) : list ascii :=
  match bs with
  | a :: b :: c :: rest =>
      b64_char (sx0 a) :: b64_char (sx1 a b) :: b64_char (sx2 b c)
        :: b64_char (sx3 c) :: b64_groups rest
  | [a; b] =>
      [b64_char (sx0 a); b64_char (sx1 a b);
       b64_char (Z.shiftl (Z.land (zb b) 15) 2); pad]
  | [a] =>
      [b64_char (sx0 a); b64_char (Z.shiftl (Z.land (zb a) 3) 4); pad; pad]
  | [] => []
  end.

(** [binascii.b2a_base64(data)] (with [newline=True]). *)
Definition b2a_base64 (bs : list Byte.byte) : list ascii :=
  (b64_groups bs ++ [newline])%list.

(** [base64.MAXBINSIZE] = 76 // 4 * 3. *)
Definition MAXBINSIZE : nat := 57.

Fixpoint encode_chunks (fuel : nat) (s : list Byte.byte) : list ascii :=
  match fuel with
  | O => []
  | S f =>
      match s with
      | [] => []
      | _ => (b2a_base64 (firstn MAXBINSIZE s)
               ++ encode_chunks f (skipn MAXBINSIZE s))%list
      end
  end.

(** [base64.encodebytes(s)]: one [b2a_base64] line per 57 bytes.  It is
    also [email.base64mime.body_encode] with its default line length and
    end of line. *)
Definition encodebytes (s : list Byte.byte) : list ascii :=
  encode_chunks (length s) s.

(** [binascii.a2b_base64(data, strict_mode)] (CPython 3.11): the state is
    the quad position, [leftchar], the count of pad characters, the
    [padding_started] flag and the output written so far.  [inl] is a
    [binascii.Error] with its message. *)
Fixpoint a2b_loop (strict : bool) (s : list ascii) (quad_pos : nat)
    (leftchar : Z) (pads : nat) (padding_started : bool)
    (out : list Byte.byte) : string + list Byte.byte :=
  match s with
  | [] =>
      if Nat.eqb quad_pos 0 then inr out
      else if Nat.eqb quad_pos 1 then
        inl ("Invalid base64-encoded string: number of data characters ("
             ++ PyStr.of_nat (Nat.div (length out) 3 * 4 + 1)
             ++ ") cannot be 1 more than a multiple of 4")
      else inl "Incorrect padding"
  | ch :: rest =>
      if Ascii.eqb ch pad then
        if strict && Nat.eqb quad_pos 0 then inl "Leading padding not allowed"
        else if Nat.leb 2 quad_pos && Nat.leb 4 (quad_pos + S pads) then
          (if strict && negb (match rest with [] => true | _ => false end)
           then inl "Excess data after padding"
           else inr out)
        else
          a2b_loop strict rest quad_pos leftchar
            (if Nat.leb 2 quad_pos then S pads else pads) true out
      else
        let v := table_a2b ch in
        if 64 <=? v then
          (if strict then inl "Only base64 data is allowed"
           else a2b_loop strict rest quad_pos leftchar pads padding_started out)
        else if strict && padding_started then
          inl "Discontinuous padding not allowed"
        else
          match quad_pos with
          | O => a2b_loop strict rest 1 v 0 padding_started out
          | 1%nat =>
              a2b_loop strict rest 2 (Z.land v 15) 0 padding_started
                (out ++ [bz (Z.lor (Z.shiftl leftchar 2) (Z.shiftr v 4))])%list
          | 2%nat =>
              a2b_loop strict rest 3 (Z.land v 3) 0 padding_started
                (out ++ [bz (Z.lor (Z.shiftl leftchar 4) (Z.shiftr v 2))])%list
          | _ =>
              a2b_loop strict rest 0 0 0 padding_started
                (out ++ [bz (Z.lor (Z.shiftl leftchar 6) v)])%list
          end
  end.

Definition a2b_base64 (strict : bool) (s : list ascii) : string + list Byte.byte :=
  a2b_loop strict s 0 0 0 false [].

(** [base64.b64decode(s)] on a [str] (altchars [None], [validate=False]):
    [_bytes_from_decode_data] first encodes [s] as ASCII. *)
Definition b64decode (s : string) : string + list Byte.byte :=
  let l := list_ascii_of_string s in
  if forallb (fun c => (N_of_ascii c <? 128)%N) l then a2b_base64 false l
  else inl "string argument should contain only ASCII characters".

Definition ascii_bytes (l : list ascii) : list Byte.byte :=
  map byte_of_ascii l.

(** [email._encoded_words.decode_b] (its value; the defects are dropped). *)
Definition decode_b (encoded : list ascii) : list Byte.byte :=
  let pad_err := Nat.modulo (length encoded) 4 in
  let missing_padding :=
    if Nat.eqb pad_err 0 then [] else firstn (4 - pad_err) [pad; pad; pad] in
  match a2b_base64 true (encoded ++ missing_padding)%list with
  | inr v => v
  | inl _ =>
      match a2b_base64 false encoded with
      | inr v => v
      | inl _ =>
          match a2b_base64 false (encoded ++ [pad; pad])%list with
          | inr v => v
          | inl _ => ascii_bytes encoded
          end
      end
  end.

(** [b''.join(bpayload.splitlines())]. *)
Definition join_lines (l : list ascii) : list ascii :=
  filter (fun c => negb (Ascii.eqb c newline || Ascii.eqb c "013"%char)) l.

End B64.

(* ------------------------------------------------------------------ *)
(** ** MIME messages ([email.mime]) *)

Module Mime.

(** A leaf part: its headers in order and its (already encoded) payload. *)
Record Part := mkPart {
  p_headers : list (string * string);
  p_payload : string
}.

(** A [MIMEMultipart] message: its headers and its attached parts.  The
    boundary, chosen when the message is serialised, is not modelled. *)
Record Message := mkMessage {
  m_headers : list (string * string);
  m_parts : list Part
}.

Definition dquote : string := String (ascii_of_nat 34) EmptyString.
Definition quoted (s : string) : string := dquote ++ s ++ dquote.

(** [str.lower] on U+0000..U+00FF (ASCII letters and Latin-1 capitals). *)
Definition lower_char (c : ascii) : ascii :=
  let n := nat_of_ascii c in
  if ((65 <=? n) && (n <=? 90)) || ((192 <=? n) && (n <=? 222) && negb (n =? 215))
  then ascii_of_nat (n + 32) else c.

Definition lower (s : string) : string :=
  string_of_list_ascii (map lower_char (list_ascii_of_string s)).

(** [Message.get(name)]: the first header of that name, case-insensitively. *)
Definition get_header (hs : list (string * string)) (name : string)
  : option string :=
  option_map snd (find (fun h => String.eqb (lower (fst h)) (lower name)) hs).

(** [str.encode("utf-8")] of a string of code points U+0000..U+00FF. *)
Definition utf8_encode (s : string) : list Byte.byte :=
  flat_map (fun c =>
    let n := N_of_ascii c in
    if (n <? 128)%N then [byte_of_ascii c]
    else [B64.bz (Z.lor 192 (Z.shiftr (Z.of_N n) 6));
          B64.bz (Z.lor 128 (Z.land (Z.of_N n) 63))])
    (list_ascii_of_string s).

(** [MIMEText(body_text, "html", "utf-8")]: [MIMEBase.__init__] adds the
    Content-Type (with its charset parameter) and MIME-Version headers;
    [set_payload] with the utf-8 charset stores the UTF-8 bytes, encodes
    them with [base64mime.body_encode] and adds the
    Content-Transfer-Encoding header. *)
Definition mime_text_html_utf8 (body_text : string) : Part :=
  mkPart [("Content-Type", "text/html; charset=" ++ quoted "utf-8");
          ("MIME-Version", "1.0");
          ("Content-Transfer-Encoding", "base64")]
         (string_of_list_ascii (B64.encodebytes (utf8_encode body_text))).

(** [part = MIMEBase("application", "octet-stream")];
    [part.set_payload(data)]; [encoders.encode_base64(part)];
    [part.add_header("Content-Disposition", f'attachment; filename="{name}"')]. *)
Definition octet_stream_attachment (data : list Byte.byte) (name : string)
  : Part :=
  mkPart [("Content-Type", "application/octet-stream");
          ("MIME-Version", "1.0");
          ("Content-Transfer-Encoding", "base64");
          ("Content-Disposition", "attachment; filename=" ++ quoted name)]
         (string_of_list_ascii (B64.encodebytes data)).

(** [MIMEMultipart()] followed by the From, To and Subject assignments. *)
Definition multipart_headers (sender to_email subject : string)
  : list (string * string) :=
  [("Content-Type", "multipart/mixed"); ("MIME-Version", "1.0");
   ("From", sender); ("To", to_email); ("Subject", subject)].

(** [part.get_payload(decode=True)] of a leaf part whose payload is an
    ASCII [str]: under [Content-Transfer-Encoding: base64] the lines are
    joined and decoded by [decode_b]; the parts built here carry no other
    transfer encoding, and without one the ASCII bytes are returned. *)
Definition get_payload_decoded (p : Part) : list Byte.byte :=
  let bpayload := list_ascii_of_string p.(p_payload) in
  match get_header p.(p_headers) "Content-Transfer-Encoding" with
  | Some cte =>
      if String.eqb (lower cte) "base64"
      then B64.decode_b (B64.join_lines bpayload)
      else B64.ascii_bytes bpayload
  | None => B64.ascii_bytes bpayload
  end.

(** Parts with a [Content-Disposition: attachment...] header. *)
Definition is_attachment (p : Part) : bool :=
  match get_header p.(p_headers) "Content-Disposition" with
  | Some v => String.prefix "attachment" v
  | None => false
  end.

Definition is_html (p : Part) : bool :=
  match get_header p.(p_headers) "Content-Type" with
  | Some v => String.prefix "text/html" v
  | None => false
  end.

End Mime.

(* ------------------------------------------------------------------ *)
(** ** Exceptions, side effects and the world *)

(** The exception classes the handlers tell apart. *)
Inductive exn_kind :=
| SMTPServerDisconnected     (** [smtplib.SMTPServerDisconnected] *)
| SMTPError                  (** any other [smtplib.SMTPException] *)
| FileNotFoundError
| OSError                    (** [OSError] and its other subclasses *)
| OtherError.                (** [KeyError], [ValueError], ... *)

(** An exception and its [str(e)]. *)
Record exn := mkExn { kind : exn_kind; text : string }.

Definition is_smtp_exception (e : exn) : bool :=
  match e.(kind) with
  | SMTPServerDisconnected | SMTPError => true
  | _ => false
  end.

(** The side effects of a request, in the order they are performed. *)
Inductive event :=
| PathExists (path : string)                  (** [Path(path).exists()] *)
| ReadText (path : string)                    (** [open(path, "r").read()] *)
| ReadBytes (path : string)                   (** [open(path, "rb").read()] *)
| Connect (host : string) (port : Z)          (** [smtplib.SMTP(host, port)] *)
| Ehlo | Starttls
| Login (user password : string)
| Sendmail (from : string) (to : list string) (msg : Mime.Message)
| Sleep (seconds : Q)                         (** [time.sleep(seconds)] *)
| Quit                                        (** [SMTP.__exit__] sends QUIT *)
| Close.

(** The environment answers each effect given the effects performed before
    it: the file system, and the relay ([None] when it accepts). *)
Record World := mkWorld {
  w_exists : list event -> string -> bool;
  w_read_text : list event -> string -> exn + string;
  w_read_bytes : list event -> string -> exn + list Byte.byte;
  w_smtp : list event -> event -> option exn
}.

(** A computation reads the world and the effects performed so far, and
    returns the effects it performs and an exception or a value. *)
Definition M (A : Type) : Type :=
  World -> list event -> list event * (exn + A).

Definition ret {A} (a : A) : M A := fun _ _ => ([], inr a).

Definition raise {A} (e : exn) : M A := fun _ _ => ([], inl e).

Definition bind {A B} (m : M A) (k : A -> M B) : M B :=
  fun w h =>
    let (ev1, r) := m w h in
    match r with
    | inl e => (ev1, inl e)
    | inr a => let (ev2, r2) := k a w (h ++ ev1)%list in ((ev1 ++ ev2)%list, r2)
    end.

Notation "x <- m ;; k" := (bind m (fun x => k))
  (at level 61, m at next level, right associativity).
Notation "m ;;; k" := (bind m (fun _ => k))
  (at level 61, right associativity).

(** [try: m except Exception as e: ...]. *)
Definition try_ {A} (m : M A) : M (exn + A) :=
  fun w h => let (ev, r) := m w h in (ev, inr r).

Definition lift {A} (r : exn + A) : M A := fun _ _ => ([], r).

Definition path_exists (p : string) : M bool :=
  fun w h => ([PathExists p], inr (w.(w_exists) h p)).

Definition read_text (p : string) : M string :=
  fun w h => ([ReadText p], w.(w_read_text) h p).

Definition read_bytes (p : string) : M (list Byte.byte) :=
  fun w h => ([ReadBytes p], w.(w_read_bytes) h p).

(** A command to the relay; it raises what the relay answers. *)
Definition smtp_do (ev : event) : M unit :=
  fun w h =>
    ([ev], match w.(w_smtp) h ev with None => inr tt | Some e => inl e end).

Definition sleep (d : Q) : M unit := fun _ _ => ([Sleep d], inr tt).

(** [SMTP.close()] releases the socket and raises nothing. *)
Definition close : M unit := fun _ _ => ([Close], inr tt).

Definition reraise {A} (r : exn + A) : M A :=
  match r with inl e => raise e | inr a => ret a end.

(** [with smtplib.SMTP(host, port) as smtp: body]: the connection is made
    by the constructor; [__exit__] sends QUIT, ignores
    [SMTPServerDisconnected], lets any other exception of QUIT replace the
    outcome of the body, and always closes the socket. *)
Definition with_smtp {A} (host : string) (port : Z) (body : M A) : M A :=
  smtp_do (Connect host port) ;;;
  r <- try_ body ;;
  q <- try_ (smtp_do Quit) ;;
  close ;;;
  match q with
  | inl e =>
      match e.(kind) with
      | SMTPServerDisconnected => reraise r
      | _ => raise e
      end
  | inr _ => reraise r
  end.

(* ------------------------------------------------------------------ *)
(** ** [code_sender.py] *)

Module CodeSender.

Definition SMTP_SERVER : string := "smtp.gmail.com".
Definition SMTP_PORT : Z := 587.
(** [SEND_DELAY: float = 1.0], in seconds. *)
Definition SEND_DELAY : Q := 1.
Definition TEMPLATE_PATH : string := "email_template.html".
(** Every entry of [RECIPIENTS] is commented out. *)
Definition RECIPIENTS : list Recipient := [].

(** An f-string field holding an [Optional[str]]. *)
Definition fstr (o : option string) : string := PyStr.get o "None".

(** [Path(p).name]: the last component, the parser dropping the empty
    ones and the ["."] ones. *)
Definition path_name (p : string) : string :=
  let fix comps (l : list ascii) (cur : list ascii) : list (list ascii) :=
    match l with
    | [] => [rev cur]
    | c :: r =>
        if Ascii.eqb c "/"%char then rev cur :: comps r [] else comps r (c :: cur)
    end in
  let cs := filter (fun c => match c with [] => false | ["."%char] => false | _ => true end)
              (comps (list_ascii_of_string p) []) in
  string_of_list_ascii (last cs []).

Definition load_email_template (template_path : string) : M string :=
  ex <- path_exists template_path ;;
  if negb ex then
    raise (mkExn FileNotFoundError ("Email template not found: " ++ template_path))
  else read_text template_path.

(** [build_message]: an attachment given as data is attached when the
    bytes are truthy (non-empty); otherwise a truthy attachment path is
    read from disk. *)
Definition build_message (sender to_email subject body_text : string)
    (attachment_path : option string)
    (attachment_data : option (list Byte.byte))
    (attachment_filename : option string) : M Mime.Message :=
  let headers := Mime.multipart_headers sender to_email subject in
  let html := Mime.mime_text_html_utf8 body_text in
  match attachment_data with
  | Some ((_ :: _) as data) =>
      ret (Mime.mkMessage headers
             [html; Mime.octet_stream_attachment data (fstr attachment_filename)])
  | _ =>
      match attachment_path with
      | Some path =>
          if PyStr.truthy path then
            ex <- path_exists path ;;
            if negb ex then
              raise (mkExn FileNotFoundError ("Attachment not found: " ++ path))
            else
              data <- read_bytes path ;;
              ret (Mime.mkMessage headers
                     [html; Mime.octet_stream_attachment data (path_name path)])
          else ret (Mime.mkMessage headers [html])
      | None => ret (Mime.mkMessage headers [html])
      end
  end.

(** [send_one]: build the message and submit it to the one recipient. *)
Definition send_one (sender recipient subject body : string)
    (attachment : option string) (attachment_data : option (list Byte.byte))
    (attachment_filename : option string) : M unit :=
  msg <- build_message sender recipient subject body attachment
           attachment_data attachment_filename ;;
  smtp_do (Sendmail sender [recipient] msg).

Definition validate_configuration (check_recipients : bool) : M unit :=
  if check_recipients && match RECIPIENTS with [] => true | _ => false end then
    raise (mkExn OtherError
             "No recipients configured. Please add at least one recipient.")
  else
    ex <- path_exists TEMPLATE_PATH ;;
    if negb ex then
      raise (mkExn FileNotFoundError ("Email template not found: " ++ TEMPLATE_PATH))
    else ret tt.

End CodeSender.

(* ------------------------------------------------------------------ *)
(** ** [app.py] *)

Module App.
Import CodeSender.

(** JSON values of the responses. *)
Inductive json :=
| JBool (b : bool)
| JInt (z : Z)
| JStr (s : string)
| JArr (l : list json)
| JObj (fields : list (string * json)).

(** An HTTP status code and a JSON body. *)
Definition Response : Type := (Z * json)%type.

(** The JSON body of a request: [None] is an absent key. *)
Record Request := mkRequest {
  rq_recipients : option (list Recipient);
  rq_recipient : option Recipient;
  rq_email : option string;
  rq_company : option string;
  rq_sender_email : option string;
  rq_app_password : option string;
  rq_job_title : option string;
  rq_subject : option string;
  rq_pdf_file : option string;
  rq_pdf_filename : option string;
  rq_name : option string;
  rq_phone_number : option string
}.

(** [template.format] with keyword arguments: the formatted text or the exception it
    raises ([KeyError] for a placeholder without an argument, ...). *)
Definition Formatter : Type := string -> list (string * string) -> exn + string.

(** A per-recipient outcome of the batch. *)
Record SendResult := mkSendResult {
  sr_email : string;
  sr_status : string;
  sr_message : string
}.

Definition result_json (r : SendResult) : json :=
  JObj [("email", JStr r.(sr_email)); ("status", JStr r.(sr_status));
        ("message", JStr r.(sr_message))].

Definition error_response (code : Z) (m : string) : Response :=
  (code, JObj [("error", JStr m)]).

Definition failure_response (code : Z) (m : string) : Response :=
  (code, JObj [("success", JBool false); ("error", JStr m)]).

Definition batch_response (results : list SendResult) (successful failed total : nat)
  : Response :=
  (200%Z, JObj [("success", JBool true);
          ("message", JStr ("Email sending completed. Success: "
                            ++ PyStr.of_nat successful ++ ", Failed: "
                            ++ PyStr.of_nat failed));
          ("results", JArr (map result_json results));
          ("summary", JObj [("successful", JInt (Z.of_nat successful));
                            ("failed", JInt (Z.of_nat failed));
                            ("total", JInt (Z.of_nat total))])]).

(** A run of [if not field: return ...] checks: the message of the first
    one that fails. *)
Fixpoint first_missing (checks : list (bool * string)) : option string :=
  match checks with
  | [] => None
  | (present, m) :: rest => if present then first_missing rest else Some m
  end.

(** [data.get(key, "").strip()]. *)
Definition field (o : option string) : string := PyStr.strip (PyStr.get o "").

(** What the loop of [send_emails] shares across recipients. *)
Record Batch := mkBatch {
  b_template : string;
  b_job_title : string;
  b_name : string;
  b_phone_number : string;
  b_sender_email : string;
  b_subject : string;
  b_pdf_data : list Byte.byte;
  b_pdf_filename : string;
  b_count : nat            (** [len(recipients)] *)
}.

Definition Acc : Type := (list SendResult * nat * nat)%type.

(** One iteration of [for recipient in recipients:] in [send_emails]. *)
Definition send_step (fmt : Formatter) (b : Batch) (recipient : Recipient)
    (acc : Acc) : M Acc :=
  let '(results, successful_sends, failed_sends) := acc in
  let to_email := PyStr.strip (PyStr.get recipient.(email) "") in
  if negb (PyStr.truthy to_email) then ret acc
  else
    let greeting := create_greeting recipient in
    body <- lift (fmt b.(b_template)
                     [("greeting", greeting); ("job_title", b.(b_job_title));
                      ("name", b.(b_name)); ("phone_number", b.(b_phone_number));
                      ("email", b.(b_sender_email))]) ;;
    r <- try_ (send_one b.(b_sender_email) to_email b.(b_subject) body None
                 (Some b.(b_pdf_data)) (Some b.(b_pdf_filename))) ;;
    let acc' :=
      match r with
      | inr _ =>
          ((results ++ [mkSendResult to_email "success" "Email sent successfully"])%list,
           S successful_sends, failed_sends)
      | inl e =>
          ((results ++ [mkSendResult to_email "error" e.(text)])%list,
           successful_sends, S failed_sends)
      end in
    (if Nat.ltb 1 b.(b_count) then sleep SEND_DELAY else ret tt) ;;;
    ret acc'.

Fixpoint send_loop (fmt : Formatter) (b : Batch) (recipients : list Recipient)
    (acc : Acc) : M Acc :=
  match recipients with
  | [] => ret acc
  | r :: rest => acc' <- send_step fmt b r acc ;; send_loop fmt b rest acc'
  end.

(** The outermost [except Exception as e]. *)
Definition catch_unexpected (m : M Response) (on_error : string -> Response)
  : M Response :=
  r <- try_ m ;;
  match r with
  | inr resp => ret resp
  | inl e => ret (on_error ("Unexpected error: " ++ e.(text)))
  end.

(** [POST /api/recipients]. *)
Definition send_emails (fmt : Formatter) (data : Request) : M Response :=
  catch_unexpected (
    let recipients := match data.(rq_recipients) with Some l => l | None => [] end in
    let sender_email := field data.(rq_sender_email) in
    let app_password := field data.(rq_app_password) in
    let job_title := field data.(rq_job_title) in
    let subject := field data.(rq_subject) in
    let pdf_file_base64 := PyStr.get data.(rq_pdf_file) "" in
    let pdf_filename := PyStr.get data.(rq_pdf_filename) "CV.pdf" in
    let name := field data.(rq_name) in
    let phone_number := field data.(rq_phone_number) in
    match first_missing
            [(match recipients with [] => false | _ => true end, "No recipients provided");
             (PyStr.truthy sender_email, "Sender email is required");
             (PyStr.truthy app_password, "App password is required");
             (PyStr.truthy job_title, "Job title is required");
             (PyStr.truthy subject, "Subject is required");
             (PyStr.truthy pdf_file_base64, "PDF file is required");
             (PyStr.truthy name, "Name is required");
             (PyStr.truthy phone_number, "Phone number is required")] with
    | Some m => ret (error_response 400 m)
    | None =>
    match B64.b64decode pdf_file_base64 with
    | inl m => ret (error_response 400 ("Invalid PDF file data: " ++ m))
    | inr pdf_data =>
    c <- try_ (validate_configuration false) ;;
    match c with
    | inl e => ret (error_response 500 ("Configuration error: " ++ e.(text)))
    | inr _ =>
    t <- try_ (load_email_template TEMPLATE_PATH) ;;
    match t with
    | inl e => ret (error_response 500 ("Template loading error: " ++ e.(text)))
    | inr email_template =>
    let b := mkBatch email_template job_title name phone_number sender_email
               subject pdf_data pdf_filename (length recipients) in
    s <- try_ (with_smtp SMTP_SERVER SMTP_PORT (
           smtp_do Ehlo ;;;
           smtp_do Starttls ;;;
           smtp_do (Login sender_email app_password) ;;;
           acc <- send_loop fmt b recipients ([], 0, 0) ;;
           let '(results, successful_sends, failed_sends) := acc in
           ret (batch_response results successful_sends failed_sends
                  (length recipients)))) ;;
    match s with
    | inr resp => ret resp
    | inl e =>
        if is_smtp_exception e
        then ret (error_response 500 ("SMTP error: " ++ e.(text)))
        else raise e
    end
    end end end end)
  (error_response 500).

(** [POST /api/send-single]. *)
Definition send_single_email (fmt : Formatter) (data : Request) : M Response :=
  catch_unexpected (
    let recipient := match data.(rq_recipient) with
                     | Some r => r | None => mkRecipient None None end in
    let to_email := PyStr.strip (PyStr.get recipient.(email) "") in
    let sender_email := field data.(rq_sender_email) in
    let app_password := field data.(rq_app_password) in
    let job_title := field data.(rq_job_title) in
    let subject := field data.(rq_subject) in
    let pdf_file_base64 := PyStr.get data.(rq_pdf_file) "" in
    let pdf_filename := PyStr.get data.(rq_pdf_filename) "CV.pdf" in
    let name := field data.(rq_name) in
    let phone_number := field data.(rq_phone_number) in
    match first_missing
            [(PyStr.truthy to_email, "Email address is required");
             (PyStr.truthy sender_email, "Sender email is required");
             (PyStr.truthy app_password, "App password is required");
             (PyStr.truthy job_title, "Job title is required");
             (PyStr.truthy subject, "Subject is required");
             (PyStr.truthy pdf_file_base64, "PDF file is required");
             (PyStr.truthy name, "Name is required");
             (PyStr.truthy phone_number, "Phone number is required")] with
    | Some m => ret (failure_response 400 m)
    | None =>
    match B64.b64decode pdf_file_base64 with
    | inl m => ret (failure_response 400 ("Invalid PDF file data: " ++ m))
    | inr pdf_data =>
    c <- try_ (validate_configuration false) ;;
    match c with
    | inl e => ret (failure_response 500 ("Configuration error: " ++ e.(text)))
    | inr _ =>
    t <- try_ (load_email_template TEMPLATE_PATH) ;;
    match t with
    | inl e => ret (failure_response 500 ("Template loading error: " ++ e.(text)))
    | inr email_template =>
    let greeting := create_greeting recipient in
    body <- lift (fmt email_template
                     [("greeting", greeting); ("job_title", job_title);
                      ("name", name); ("phone_number", phone_number);
                      ("email", sender_email)]) ;;
    s <- try_ (with_smtp SMTP_SERVER SMTP_PORT (
           smtp_do Ehlo ;;;
           smtp_do Starttls ;;;
           smtp_do (Login sender_email app_password) ;;;
           send_one sender_email to_email subject body None (Some pdf_data)
             (Some pdf_filename) ;;;
           ret (200%Z, JObj [("success", JBool true);
                             ("message", JStr ("Email sent successfully to " ++ to_email))]))) ;;
    match s with
    | inr resp => ret resp
    | inl e => ret (failure_response 500 ("Failed to send email: " ++ e.(text)))
    end
    end end end end)
  (failure_response 500).

(** [POST /api/test-email]. *)
Definition test_email (fmt : Formatter) (data : Request) : M Response :=
  catch_unexpected (
    let test_email := field data.(rq_email) in
    let sender_email := field data.(rq_sender_email) in
    let app_password := field data.(rq_app_password) in
    let job_title := field data.(rq_job_title) in
    let subject := field data.(rq_subject) in
    let pdf_file_base64 := PyStr.get data.(rq_pdf_file) "" in
    let pdf_filename := PyStr.get data.(rq_pdf_filename) "CV.pdf" in
    match first_missing
            [(PyStr.truthy test_email, "Email address is required");
             (PyStr.truthy sender_email, "Sender email is required");
             (PyStr.truthy app_password, "App password is required");
             (PyStr.truthy job_title, "Job title is required");
             (PyStr.truthy subject, "Subject is required");
             (PyStr.truthy pdf_file_base64, "PDF file is required")] with
    | Some m => ret (error_response 400 m)
    | None =>
    match B64.b64decode pdf_file_base64 with
    | inl m => ret (error_response 400 ("Invalid PDF file data: " ++ m))
    | inr pdf_data =>
    c <- try_ (validate_configuration false) ;;
    match c with
    | inl e => ret (error_response 500 ("Configuration error: " ++ e.(text)))
    | inr _ =>
    t <- try_ (load_email_template TEMPLATE_PATH) ;;
    match t with
    | inl e => ret (error_response 500 ("Template loading error: " ++ e.(text)))
    | inr email_template =>
    (* [recipient = {"email": test_email, "company": data.get("company", "")}] *)
    let recipient := mkRecipient (Some test_email) (Some (PyStr.get data.(rq_company) "")) in
    let greeting := create_greeting recipient in
    body <- lift (fmt email_template [("greeting", greeting); ("job_title", job_title)]) ;;
    s <- try_ (with_smtp SMTP_SERVER SMTP_PORT (
           smtp_do Ehlo ;;;
           smtp_do Starttls ;;;
           smtp_do (Login sender_email app_password) ;;;
           send_one sender_email test_email subject body None (Some pdf_data)
             (Some pdf_filename) ;;;
           ret (200%Z, JObj [("success", JBool true);
                             ("message", JStr ("Test email sent successfully to " ++ test_email))]))) ;;
    match s with
    | inr resp => ret resp
    | inl e => ret (error_response 500 ("Failed to send email: " ++ e.(text)))
    end
    end end end end)
  (error_response 500).

End App.

(* ------------------------------------------------------------------ *)
(** ** Finite checks over bytes *)

Module ByteFacts.
Import B64.
Local Open Scope Z_scope.

Definition all_bytes : list Byte.byte :=
  map (fun n => bz (Z.of_nat n)) (seq 0 256).

Definition byte_eqb (x y : Byte.byte) : bool :=
  if Byte.byte_eq_dec x y then true else false.

(** A sextet the encoder may emit and the decoder reads back. *)
Definition sext_ok (v : Z) : bool :=
  (0 <=? v) && (v <? 64) && (table_a2b (b64_char v) =? v)
  && negb (Ascii.eqb (b64_char v) pad)
  && negb (Ascii.eqb (b64_char v) newline)
  && negb (Ascii.eqb (b64_char v) "013"%char).

(** Everything the round trip needs about the bytes [a] and [b]. *)
Definition pair_ok (a b : Byte.byte) : bool :=
  sext_ok (sx0 a) && sext_ok (sx1 a b) && sext_ok (sx2 a b) && sext_ok (sx3 a)
  && sext_ok (Z.shiftl (Z.land (zb a) 3) 4)
  && sext_ok (Z.shiftl (Z.land (zb a) 15) 2)
  && byte_eqb (bz (Z.lor (Z.shiftl (sx0 a) 2) (Z.shiftr (sx1 a b) 4))) a
  && (Z.land (sx1 a b) 15 =? Z.shiftr (zb b) 4)
  && byte_eqb (bz (Z.lor (Z.shiftl (Z.shiftr (zb a) 4) 4) (Z.shiftr (sx2 a b) 2))) a
  && (Z.land (sx2 a b) 3 =? Z.shiftr (zb b) 6)
  && byte_eqb (bz (Z.lor (Z.shiftl (Z.shiftr (zb a) 6) 6) (sx3 a))) a
  && byte_eqb (bz (Z.lor (Z.shiftl (sx0 a) 2)
                         (Z.shiftr (Z.shiftl (Z.land (zb a) 3) 4) 4))) a
  && byte_eqb (bz (Z.lor (Z.shiftl (Z.shiftr (zb a) 4) 4)
                         (Z.shiftr (Z.shiftl (Z.land (zb a) 15) 2) 2))) a.

End ByteFacts.

(* ------------------------------------------------------------------ *)
(** ** Concrete requests and worlds *)

Module Scenarios.
Import App.

(** A template without placeholders: formatting returns it unchanged. *)
Definition fmt_plain : Formatter := fun template _ => inr template.

(** A file system holding the template, and a relay that accepts
    everything. *)
Definition world_ok : World :=
  mkWorld (fun _ _ => true) (fun _ _ => inr "<p>Dear team</p>")
          (fun _ _ => inr []) (fun _ _ => None).

Definition acme : Recipient := mkRecipient (Some "hr@acme.com") (Some "Acme").

(** A batch or test request with every scalar field filled in. *)
Definition batch_request (recipients : list Recipient) (pdf_file : string) : Request :=
  mkRequest (Some recipients) None (Some "hr@acme.com") (Some "Acme")
    (Some "me@example.com") (Some "secret") (Some "Developer") (Some "Application")
    (Some pdf_file) (Some "cv.pdf") (Some "Sam") (Some "555").

(** A recipient whose address is blank. *)
Definition blank : Recipient := mkRecipient (Some "   ") (Some "Nobody").

(** A formatter that accepts exactly two keyword arguments. *)
Definition fmt_two_keys : Formatter :=
  fun template kw =>
    match kw with
    | [_; _] => inr template
    | _ => inl (mkExn OtherError "unexpected keyword arguments")
    end.

(** A request to the test endpoint. *)
Definition test_request (email : option string) : Request :=
  mkRequest None None email (Some "Acme") (Some "me@example.com") (Some "secret")
    (Some "Developer") (Some "Application") (Some "TWFu") (Some "cv.pdf") None None.

Definition rejected : exn := mkExn SMTPError "550 Mailbox unavailable".

(** The batch [send_emails] builds for [batch_request _ "TWFu"]. *)
Definition sample_batch (count : nat) : Batch :=
  mkBatch "<p>Dear team</p>" "Developer" "Sam" "555" "me@example.com" "Application"
    [Byte.x4d; Byte.x61; Byte.x6e] "cv.pdf" count.

(** A file system without any file; the relay accepts everything. *)
Definition world_empty : World :=
  mkWorld (fun _ _ => false) (fun _ _ => inr "") (fun _ _ => inr []) (fun _ _ => None).

(** The template is found by [validate_configuration] and is gone when
    [load_email_template] looks for it. *)
Definition world_template_vanishes : World :=
  mkWorld (fun h _ => match h with [] => true | _ => false end)
          (fun _ _ => inr "<p>Dear team</p>") (fun _ _ => inr []) (fun _ _ => None).

(** A file system holding the template and the attachment [cv.pdf]. *)
Definition world_files : World :=
  mkWorld (fun _ _ => true) (fun _ _ => inr "<p>Dear team</p>")
          (fun _ _ => inr [Byte.x25; Byte.x50; Byte.x44; Byte.x46]) (fun _ _ => None).

(** A template with a [{company}] placeholder: [str.format] raises
    [KeyError('company')]. *)
Definition fmt_missing_key : Formatter :=
  fun _ _ => inl (mkExn OtherError "'company'").

(** A request carrying every field of the three endpoints. *)
Definition full_request (pdf_file : string) : Request :=
  mkRequest (Some [acme]) (Some acme) (Some "hr@acme.com") (Some "Acme")
    (Some "me@example.com") (Some "secret") (Some "Developer") (Some "Application")
    (Some pdf_file) (Some "cv.pdf") (Some "Sam") (Some "555").

(** [ConnectionRefusedError], an [OSError] that is no SMTP exception. *)
Definition refused : exn := mkExn OSError "[Errno 111] Connection refused".

End Scenarios.

(* ------------------------------------------------------------------ *)
(** ** Observations on runs *)

Module Obs.
Import App.

(** [data.get("recipients", [])]. *)
Definition recipients_of (data : Request) : list Recipient :=
  match data.(rq_recipients) with Some l => l | None => [] end.

(** The trimmed addresses of the recipients that are not skipped, in
    input order. *)
Definition kept (recipients : list Recipient) : list string :=
  filter PyStr.truthy
    (map (fun r => PyStr.strip (PyStr.get r.(email) "")) recipients).

Definition count_status (st : string) (results : list SendResult) : nat :=
  length (filter (fun r => String.eqb r.(sr_status) st) results).

(** Accumulator invariant of the loop: the counters count the statuses,
    and every status is "success" or "error". *)
Definition acc_ok (acc : Acc) : Prop :=
  let '(results, successful, failed) := acc in
  successful = count_status "success" results
  /\ failed = count_status "error" results
  /\ forallb (fun r => String.eqb r.(sr_status) "success"
                      || String.eqb r.(sr_status) "error") results = true.

Definition is_sendmail (ev : event) : bool :=
  match ev with Sendmail _ _ _ => true | _ => false end.

Definition is_sleep (ev : event) : bool :=
  match ev with Sleep _ => true | _ => false end.

Definition count_sends (tr : list event) : nat := length (filter is_sendmail tr).

(** Every submission is immediately followed by a pause of [SEND_DELAY]. *)
Fixpoint sends_then_sleep (tr : list event) : bool :=
  match tr with
  | [] => true
  | ev :: rest =>
      (if is_sendmail ev then
         match rest with
         | Sleep d :: _ => Qeq_bool d CodeSender.SEND_DELAY
         | _ => false
         end
       else true)
      && sends_then_sleep rest
  end.

Definition ends_with_send (tr : list event) : bool :=
  match rev tr with ev :: _ => is_sendmail ev | [] => false end.

Definition no_sleep (tr : list event) : bool := forallb (fun ev => negb (is_sleep ev)) tr.

Definition no_send (tr : list event) : bool := forallb (fun ev => negb (is_sendmail ev)) tr.

(** The effects of a computation satisfy [G], whatever the world. *)
Definition preserves (G : list event -> Prop) {A} (m : M A) : Prop :=
  forall w h, G (fst (m w h)).

(** Every value a computation returns satisfies [P]. *)
Definition returns {A} (P : A -> Prop) (m : M A) : Prop :=
  forall w h evs a, m w h = (evs, inr a) -> P a.

(** The steps that open the relay session. *)
Inductive open_step := OpenConnect | OpenEhlo | OpenStarttls | OpenLogin.

Definition step_of (ev : event) : option open_step :=
  match ev with
  | Connect _ _ => Some OpenConnect
  | Ehlo => Some OpenEhlo
  | Starttls => Some OpenStarttls
  | Login _ _ => Some OpenLogin
  | _ => None
  end.

(** A required field of the batch endpoint is missing or blank. *)
Definition batch_field_missing (data : Request) : Prop :=
  recipients_of data = []
  \/ field data.(rq_sender_email) = "" \/ field data.(rq_app_password) = ""
  \/ field data.(rq_job_title) = "" \/ field data.(rq_subject) = ""
  \/ PyStr.get data.(rq_pdf_file) "" = ""
  \/ field data.(rq_name) = "" \/ field data.(rq_phone_number) = "".

Definition single_field_missing (data : Request) : Prop :=
  PyStr.strip (PyStr.get (match data.(rq_recipient) with
                          | Some r => r | None => mkRecipient None None end).(email) "") = ""
  \/ field data.(rq_sender_email) = "" \/ field data.(rq_app_password) = ""
  \/ field data.(rq_job_title) = "" \/ field data.(rq_subject) = ""
  \/ PyStr.get data.(rq_pdf_file) "" = ""
  \/ field data.(rq_name) = "" \/ field data.(rq_phone_number) = "".

Definition test_field_missing (data : Request) : Prop :=
  field data.(rq_email) = ""
  \/ field data.(rq_sender_email) = "" \/ field data.(rq_app_password) = ""
  \/ field data.(rq_job_title) = "" \/ field data.(rq_subject) = ""
  \/ PyStr.get data.(rq_pdf_file) "" = "".

(** The relay fails the second submission of a session with [e] and
    accepts everything else; the file system holds [template]. *)
Definition second_send_fails (template : string) (e : exn) : World :=
  mkWorld (fun _ _ => true) (fun _ _ => inr template) (fun _ _ => inr [])
    (fun h ev =>
       match ev with
       | Sendmail _ _ _ => if Nat.eqb (count_sends h) 1 then Some e else None
       | _ => None
       end).

(** The keyword arguments [send_emails] passes to [str.format]. *)
Definition kwargs (b : Batch) (r : Recipient) : list (string * string) :=
  [("greeting", create_greeting r); ("job_title", b.(b_job_title));
   ("name", b.(b_name)); ("phone_number", b.(b_phone_number));
   ("email", b.(b_sender_email))].

(** [recipient.get("email", "").strip()]. *)
Definition to_of (r : Recipient) : string := PyStr.strip (PyStr.get r.(email) "").

(** Traces where every submission is followed by the pause, and which do
    not end with a submission: they compose by concatenation. *)
Definition G_many (tr : list event) : Prop :=
  sends_then_sleep tr = true /\ ends_with_send tr = false.

Definition G_one (tr : list event) : Prop := no_sleep tr = true.

Definition open_step_eqb (a b : open_step) : bool :=
  match a, b with
  | OpenConnect, OpenConnect | OpenEhlo, OpenEhlo
  | OpenStarttls, OpenStarttls | OpenLogin, OpenLogin => true
  | _, _ => false
  end.

(** The relay refuses step [st] of the opening of a session with [e]. *)
Definition relay_fails_at (st : open_step) (e : exn) : World :=
  mkWorld (fun _ _ => true) (fun _ _ => inr "<p>Dear team</p>") (fun _ _ => inr [])
    (fun _ ev =>
       match step_of ev with
       | Some st' => if open_step_eqb st st' then Some e else None
       | None => None
       end).

(** No attachment bytes: [attachment_data] is [None] or [b""]. *)
Definition no_data (d : option (list Byte.byte)) : Prop :=
  d = None \/ d = Some [].

(** The components of a path as [path_name] splits it, and the ones it
    keeps. *)
Fixpoint path_comps (l : list ascii) (cur : list ascii) : list (list ascii) :=
  match l with
  | [] => [rev cur]
  | c :: r =>
      if Ascii.eqb c "/"%char then rev cur :: path_comps r [] else path_comps r (c :: cur)
  end.

Definition keep_comp (c : list ascii) : bool :=
  match c with [] => false | ["."%char] => false | _ => true end.

(** The relay accepts every command. *)
Definition relay_accepts (w : World) : Prop := forall h ev, w.(w_smtp) h ev = None.

(** The relay refuses step [st] of the opening of a session with [e] and
    accepts every other command. *)
Definition relay_refuses (w : World) (st : open_step) (e : exn) : Prop :=
  forall h ev, w.(w_smtp) h ev = (relay_fails_at st e).(w_smtp) h ev.

(** The template file exists and reads as [tpl]. *)
Definition template_ok (w : World) (tpl : string) : Prop :=
  forall h, w.(w_exists) h CodeSender.TEMPLATE_PATH = true
            /\ w.(w_read_text) h CodeSender.TEMPLATE_PATH = inr tpl.

(** The result the batch records for an accepted submission. *)
Definition sent_ok (a : string) : SendResult :=
  mkSendResult a "success" "Email sent successfully".

(** [data.get("recipient", {}).get("email", "").strip()]. *)
Definition single_to (data : Request) : string :=
  PyStr.strip (PyStr.get (match data.(rq_recipient) with
                          | Some r => r | None => mkRecipient None None end).(email) "").

(** Every submission of the trace goes from [from] to the single address
    [to]. *)
Definition sends_only (from to : string) (tr : list event) : bool :=
  forallb (fun ev => match ev with
                     | Sendmail f [t] _ => String.eqb f from && String.eqb t to
                     | Sendmail _ _ _ => false
                     | _ => true
                     end) tr.

(** Every submission of the trace goes from [from] to a single address
    of [K]. *)
Definition sends_among (from : string) (K : list string) (tr : list event) : bool :=
  forallb (fun ev => match ev with
                     | Sendmail f [t] _ => String.eqb f from && existsb (String.eqb t) K
                     | Sendmail _ _ _ => false
                     | _ => true
                     end) tr.

End Obs.

(* ================================================================== *)
(** * Proofs *)

Module ByteLemmas.
Import B64 ByteFacts.
Local Open Scope Z_scope.

Lemma all_bytes_complete (b : Byte.byte) : In b all_bytes.
Proof.
  assert (H : existsb (byte_eqb b) all_bytes = true)
    by (destruct b; vm_compute; reflexivity).
  apply existsb_exists in H as [x [Hin Hx]].
  unfold byte_eqb in Hx; destruct (Byte.byte_eq_dec b x); congruence.
Qed.

Lemma all_pairs_ok : forallb (fun a => forallb (pair_ok a) all_bytes) all_bytes = true.
Proof. vm_compute. reflexivity. Qed.

Lemma pair_ok_all (a b : Byte.byte) : pair_ok a b = true.
Proof.
  pose proof all_pairs_ok as H.
  rewrite forallb_forall in H.
  specialize (H a (all_bytes_complete a)).
  rewrite forallb_forall in H.
  exact (H b (all_bytes_complete b)).
Qed.

Lemma byte_eqb_true (x y : Byte.byte) : byte_eqb x y = true -> x = y.
Proof. unfold byte_eqb; destruct (Byte.byte_eq_dec x y); congruence. Qed.

Lemma sext_ok_facts (v : Z) :
  sext_ok v = true ->
  0 <= v < 64 /\ table_a2b (b64_char v) = v /\ Ascii.eqb (b64_char v) pad = false
  /\ Ascii.eqb (b64_char v) newline = false
  /\ Ascii.eqb (b64_char v) "013"%char = false.
Proof.
  unfold sext_ok; intros H.
  repeat rewrite andb_true_iff in H.
  destruct H as [[[[[H1 H2] H3] H4] H5] H6].
  apply Z.leb_le in H1; apply Z.ltb_lt in H2; apply Z.eqb_eq in H3.
  apply negb_true_iff in H4; apply negb_true_iff in H5; apply negb_true_iff in H6.
  repeat split; assumption || lia.
Qed.

Ltac pair_facts a b :=
  let H := fresh "H" in
  pose proof (pair_ok_all a b) as H; unfold pair_ok in H;
  repeat rewrite andb_true_iff in H;
  repeat match type of H with
         | _ /\ _ => let H' := fresh "Hp" in destruct H as [H H']
         end.

(** One data character of the decoder, outside the padding. *)
Lemma a2b_data (strict : bool) (c : ascii) (rest : list ascii) (qp : nat)
    (left : Z) (pads : nat) (out : list Byte.byte) :
  Ascii.eqb c pad = false -> 0 <= table_a2b c < 64 ->
  a2b_loop strict (c :: rest) qp left pads false out =
  match qp with
  | O => a2b_loop strict rest 1 (table_a2b c) 0 false out
  | 1%nat =>
      a2b_loop strict rest 2 (Z.land (table_a2b c) 15) 0 false
        (out ++ [bz (Z.lor (Z.shiftl left 2) (Z.shiftr (table_a2b c) 4))])%list
  | 2%nat =>
      a2b_loop strict rest 3 (Z.land (table_a2b c) 3) 0 false
        (out ++ [bz (Z.lor (Z.shiftl left 4) (Z.shiftr (table_a2b c) 2))])%list
  | _ =>
      a2b_loop strict rest 0 0 0 false
        (out ++ [bz (Z.lor (Z.shiftl left 6) (table_a2b c))])%list
  end.
Proof.
  intros Hp Hr. cbn [a2b_loop]. rewrite Hp.
  destruct (64 <=? table_a2b c) eqn:E; [apply Z.leb_le in E; lia |].
  rewrite andb_false_r. reflexivity.
Qed.

Ltac byte_facts :=
  repeat match goal with
         | H : byte_eqb _ _ = true |- _ => apply byte_eqb_true in H
         | H : Z.eqb _ _ = true |- _ => apply Z.eqb_eq in H
         | H : sext_ok _ = true |- _ =>
             let R := fresh "R" in let T := fresh "T" in let P := fresh "P" in
             let N := fresh "N" in let C := fresh "C" in
             apply sext_ok_facts in H as (R & T & P & N & C)
         end.

Ltac decode_char :=
  rewrite a2b_data by
    (match goal with
     | T : table_a2b ?x = _ |- context [table_a2b ?x] => rewrite T; lia
     | _ => assumption
     end).

Ltac use_facts :=
  repeat match goal with
         | H : ?l = _ |- context [?l] =>
             match l with
             | table_a2b _ => rewrite H
             | bz _ => rewrite H
             | Z.land _ _ => rewrite H
             | Ascii.eqb _ _ => rewrite H
             end
         end.

(** The strict decoder reads back what [b64_groups] writes. *)
Lemma a2b_b64_groups_aux (n : nat) : forall (bs : list Byte.byte),
  (length bs <= n)%nat -> forall (left : Z) (out : list Byte.byte),
  a2b_loop true (b64_groups bs) 0 left 0 false out = inr (out ++ bs)%list.
Proof.
  induction n as [|n IH]; intros bs Hlen left out.
  - destruct bs; [| simpl in Hlen; lia]. simpl. rewrite app_nil_r. reflexivity.
  - destruct bs as [|a [|b [|c rest]]].
    + simpl. rewrite app_nil_r. reflexivity.
    + pair_facts a a. byte_facts. cbn [b64_groups].
      decode_char. decode_char. cbn [a2b_loop]. cbn iota.
      use_facts. simpl. use_facts. rewrite <- ?app_assoc. reflexivity.
    + pair_facts a b. pair_facts b b. byte_facts. cbn [b64_groups].
      decode_char. decode_char. decode_char. cbn [a2b_loop]. cbn iota.
      use_facts. simpl. use_facts.
      rewrite <- ?app_assoc. reflexivity.
    + pair_facts a b. pair_facts b c. pair_facts c c. byte_facts.
      cbn [b64_groups]. decode_char. decode_char. decode_char. decode_char.
      cbn iota. use_facts.
      rewrite IH by (simpl in Hlen; lia).
      rewrite <- ?app_assoc. reflexivity.
Qed.

Lemma a2b_b64_groups (bs : list Byte.byte) :
  a2b_base64 true (b64_groups bs) = inr bs.
Proof. unfold a2b_base64. apply (a2b_b64_groups_aux (length bs)); lia. Qed.

Lemma b64_groups_app_aux (n : nat) : forall (x y : list Byte.byte),
  length x = (3 * n)%nat -> b64_groups (x ++ y) = (b64_groups x ++ b64_groups y)%list.
Proof.
  induction n as [|n IH]; intros x y Hx.
  - destruct x; [reflexivity | simpl in Hx; lia].
  - destruct x as [|a [|b [|c rest]]]; simpl in Hx; try lia.
    cbn [app b64_groups]. rewrite IH by lia. reflexivity.
Qed.

Lemma b64_groups_app (x y : list Byte.byte) :
  Nat.modulo (length x) 3 = 0%nat ->
  b64_groups (x ++ y) = (b64_groups x ++ b64_groups y)%list.
Proof.
  intros H. apply (b64_groups_app_aux (Nat.div (length x) 3)).
  pose proof (Nat.div_mod (length x) 3) as E. lia.
Qed.

Lemma join_lines_app (x y : list ascii) :
  join_lines (x ++ y) = (join_lines x ++ join_lines y)%list.
Proof. unfold join_lines. apply filter_app. Qed.

Lemma join_lines_b64_groups_aux (n : nat) : forall (bs : list Byte.byte),
  (length bs <= n)%nat -> join_lines (b64_groups bs) = b64_groups bs.
Proof.
  induction n as [|n IH]; intros bs Hlen.
  - destruct bs; [reflexivity | simpl in Hlen; lia].
  - destruct bs as [|a [|b [|c rest]]].
    + reflexivity.
    + pair_facts a a. byte_facts. cbn [b64_groups join_lines filter].
      use_facts. reflexivity.
    + pair_facts a b. pair_facts b b. byte_facts.
      cbn [b64_groups join_lines filter].
      use_facts. reflexivity.
    + pair_facts a b. pair_facts b c. pair_facts c c. byte_facts.
      cbn [b64_groups]. unfold join_lines. cbn [filter].
      use_facts. cbn -[b64_groups].
      f_equal; f_equal; f_equal; f_equal. apply IH. simpl in Hlen; lia.
Qed.

Lemma join_lines_encode_chunks (fuel : nat) : forall (s : list Byte.byte),
  (length s <= fuel)%nat -> join_lines (encode_chunks fuel s) = b64_groups s.
Proof.
  induction fuel as [|f IH]; intros s Hs.
  - destruct s; [reflexivity | simpl in Hs; lia].
  - destruct s as [|x s']; [reflexivity |].
    cbn [encode_chunks]. remember (x :: s') as s eqn:Es.
    assert (Hne : length s <> 0%nat) by (subst s; discriminate).
    unfold b2a_base64. rewrite !join_lines_app.
    rewrite join_lines_b64_groups_aux with (n := length (firstn MAXBINSIZE s))
      by lia.
    rewrite IH by (rewrite length_skipn; unfold MAXBINSIZE; lia).
    cbn [join_lines filter Ascii.eqb newline orb negb]. simpl (filter _ [newline]).
    rewrite app_nil_r.
    rewrite <- (firstn_skipn MAXBINSIZE s) at 3.
    destruct (Nat.le_gt_cases MAXBINSIZE (length s)) as [Hle | Hgt].
    + rewrite b64_groups_app; [reflexivity |].
      rewrite length_firstn. unfold MAXBINSIZE in *. rewrite Nat.min_l by lia.
      reflexivity.
    + rewrite (skipn_all2 s) by (unfold MAXBINSIZE in *; lia).
      rewrite (firstn_all2 s) by (unfold MAXBINSIZE in *; lia).
      rewrite !app_nil_r. reflexivity.
Qed.

Lemma b64_groups_length_aux (n : nat) : forall (bs : list Byte.byte),
  (length bs <= n)%nat -> Nat.modulo (length (b64_groups bs)) 4 = 0%nat.
Proof.
  induction n as [|n IH]; intros bs Hlen.
  - destruct bs; [reflexivity | simpl in Hlen; lia].
  - destruct bs as [|a [|b [|c rest]]]; try reflexivity.
    cbn [b64_groups length].
    replace (S (S (S (S (length (b64_groups rest))))))
      with (length (b64_groups rest) + 1 * 4)%nat by lia.
    rewrite Nat.Div0.mod_add. apply IH. simpl in Hlen; lia.
Qed.

(** Decoding the lines written by [encodebytes] gives the bytes back. *)
Lemma decode_b_encodebytes (bs : list Byte.byte) :
  decode_b (join_lines (encodebytes bs)) = bs.
Proof.
  unfold encodebytes. rewrite join_lines_encode_chunks by lia.
  unfold decode_b.
  rewrite (b64_groups_length_aux (length bs)) by lia.
  cbn [Nat.eqb]. rewrite app_nil_r, a2b_b64_groups. reflexivity.
Qed.

End ByteLemmas.

Module MessageProofs.
Import Mime CodeSender.

Lemma drop_space_all (l : list ascii) :
  forallb PyStr.is_space l = true -> PyStr.drop_space l = [].
Proof.
  induction l as [|c l IH]; simpl; [reflexivity |].
  intros H. apply andb_true_iff in H as [Hc Hl]. rewrite Hc. auto.
Qed.

Lemma truthy_false (s : string) : PyStr.truthy s = false -> s = "".
Proof. destruct s; [reflexivity | discriminate]. Qed.

Lemma truthy_true (s : string) : s <> "" -> PyStr.truthy s = true.
Proof. destruct s; [congruence | reflexivity]. Qed.

(** C5: [create_greeting] returns the trimmed company followed by
    " Hiring Team" when the company field is present and non-blank after
    trimming, and "Hiring Team" when it is absent, empty or
    whitespace-only; it is a total function ({"company": "Acme"} gives
    "Acme Hiring Team", {"company": ""} gives "Hiring Team"). *)
Theorem create_greeting_spec (r : Recipient) :
  (forall c, r.(company) = Some c -> PyStr.strip c <> "" ->
     create_greeting r = PyStr.strip c ++ " Hiring Team")
  /\ ((r.(company) = None
       \/ exists c, r.(company) = Some c
                    /\ forallb PyStr.is_space (list_ascii_of_string c) = true) ->
      create_greeting r = "Hiring Team")
  /\ create_greeting (mkRecipient None (Some "Acme")) = "Acme Hiring Team"
  /\ create_greeting (mkRecipient None (Some "")) = "Hiring Team".
Proof.
  unfold create_greeting. split; [| split; [| split; reflexivity]].
  - intros c Hc Hne. rewrite Hc. simpl. rewrite truthy_true by exact Hne.
    reflexivity.
  - intros [Hn | [c [Hc Hs]]].
    + rewrite Hn. reflexivity.
    + rewrite Hc. simpl. unfold PyStr.strip.
      rewrite (drop_space_all (list_ascii_of_string c) Hs).
      reflexivity.
Qed.

Lemma create_greeting_spec_witness :
  create_greeting (mkRecipient None (Some " Acme ")) = "Acme Hiring Team"
  /\ create_greeting (mkRecipient None (Some " 	")) = "Hiring Team".
Proof.
  split.
  - apply (proj1 (create_greeting_spec (mkRecipient None (Some " Acme "))) " Acme ").
    + reflexivity.
    + vm_compute. discriminate.
  - apply (proj1 (proj2 (create_greeting_spec (mkRecipient None (Some " 	"))))).
    right. exists " 	". split; reflexivity.
Defined.

Lemma payload_octet_stream (data : list Byte.byte) (name : string) :
  get_payload_decoded (octet_stream_attachment data name) = data.
Proof.
  unfold get_payload_decoded, octet_stream_attachment. cbn -[B64.decode_b B64.join_lines B64.encodebytes].
  rewrite list_ascii_of_string_of_list_ascii. apply ByteLemmas.decode_b_encodebytes.
Qed.

Lemma payload_html (body : string) :
  get_payload_decoded (mime_text_html_utf8 body) = utf8_encode body.
Proof.
  unfold get_payload_decoded, mime_text_html_utf8. cbn -[B64.decode_b B64.join_lines B64.encodebytes].
  rewrite list_ascii_of_string_of_list_ascii. apply ByteLemmas.decode_b_encodebytes.
Qed.

(** C10: with [attachment_data = b""] and no attachment path the message
    is the one built without any attachment: its only part is the HTML
    body. *)
Theorem build_message_empty_data (sender to_email subject body : string)
    (fname : option string) (w : World) (h : list event) :
  build_message sender to_email subject body None (Some []) fname w h
  = build_message sender to_email subject body None None fname w h
  /\ exists m,
       build_message sender to_email subject body None (Some []) fname w h
       = ([], inr m)
       /\ m.(m_parts) = [mime_text_html_utf8 body]
       /\ filter is_attachment m.(m_parts) = [].
Proof.
  split; [reflexivity |].
  eexists. split; [reflexivity |]. split; reflexivity.
Qed.

(** C6 fails for empty attachment bytes: no attachment part is built. *)
Lemma build_message_empty_bytes_counterexample :
  ~ (exists m,
       build_message "me@example.com" "hr@acme.com" "Application" "<p>Hi</p>"
         None (Some []) (Some "cv.pdf") Scenarios.world_ok [] = ([], inr m)
       /\ length (filter is_attachment m.(m_parts)) = 1%nat).
Proof.
  intros [m [Hm Hl]]. vm_compute in Hm. injection Hm as <-.
  vm_compute in Hl. discriminate.
Qed.

(** C6 (amended): for non-empty attachment bytes, the message has From,
    To and Subject equal to the sender, the recipient and the subject,
    exactly one HTML part, declared utf-8 and holding the UTF-8 bytes of
    the body, and exactly one attachment part, base64 encoded, of type
    application/octet-stream, with the header
    [Content-Disposition: attachment; filename="<name>"]. *)
Theorem build_message_structure (sender to_email subject body : string)
    (data : list Byte.byte) (name : string) (w : World) (h : list event) :
  data <> [] ->
  exists m,
    build_message sender to_email subject body None (Some data) (Some name) w h
    = ([], inr m)
    /\ get_header m.(m_headers) "From" = Some sender
    /\ get_header m.(m_headers) "To" = Some to_email
    /\ get_header m.(m_headers) "Subject" = Some subject
    /\ (exists html,
          filter is_html m.(m_parts) = [html]
          /\ get_header html.(p_headers) "Content-Type"
             = Some ("text/html; charset=" ++ quoted "utf-8")
          /\ get_payload_decoded html = utf8_encode body)
    /\ (exists att,
          filter is_attachment m.(m_parts) = [att]
          /\ get_header att.(p_headers) "Content-Transfer-Encoding" = Some "base64"
          /\ get_header att.(p_headers) "Content-Type" = Some "application/octet-stream"
          /\ get_header att.(p_headers) "Content-Disposition"
             = Some ("attachment; filename=" ++ quoted name)).
Proof.
  intros Hne. destruct data as [|x data]; [congruence |].
  eexists. split; [reflexivity |].
  split; [reflexivity |]. split; [reflexivity |]. split; [reflexivity |].
  split.
  - eexists. split; [reflexivity |]. split; [reflexivity |]. apply payload_html.
  - eexists. split; [reflexivity |]. split; [reflexivity |].
    split; reflexivity.
Qed.

Lemma build_message_structure_witness :
  exists m,
    build_message "me@example.com" "hr@acme.com" "Application" "<p>Hi</p>" None
      (Some [Byte.x25; Byte.x50]) (Some "cv.pdf") Scenarios.world_ok [] = ([], inr m)
    /\ get_header m.(m_headers) "From" = Some "me@example.com"
    /\ get_header m.(m_headers) "To" = Some "hr@acme.com"
    /\ get_header m.(m_headers) "Subject" = Some "Application"
    /\ (exists html,
          filter is_html m.(m_parts) = [html]
          /\ get_header html.(p_headers) "Content-Type"
             = Some ("text/html; charset=" ++ quoted "utf-8")
          /\ get_payload_decoded html = utf8_encode "<p>Hi</p>")
    /\ (exists att,
          filter is_attachment m.(m_parts) = [att]
          /\ get_header att.(p_headers) "Content-Transfer-Encoding" = Some "base64"
          /\ get_header att.(p_headers) "Content-Type" = Some "application/octet-stream"
          /\ get_header att.(p_headers) "Content-Disposition"
             = Some ("attachment; filename=" ++ quoted "cv.pdf")).
Proof. apply build_message_structure. discriminate. Defined.

(** C9 fails for the empty byte string: the payload "=" decodes to b""
    and is accepted by [send_emails], whose message then carries no
    attachment part to re-decode. *)
Lemma empty_payload_no_attachment_counterexample :
  B64.b64decode "=" = inr []
  /\ exists from to m,
       In (Sendmail from to m)
          (fst (App.send_emails Scenarios.fmt_plain
                  (Scenarios.batch_request [Scenarios.acme] "=")
                  Scenarios.world_ok []))
       /\ filter is_attachment m.(m_parts) = [].
Proof.
  split; [reflexivity |].
  do 3 eexists. split.
  - vm_compute. repeat (solve [left; reflexivity] || right).
  - reflexivity.
Qed.

(** C9 (amended): for every non-empty byte string [b] decoded from a
    base64 payload [s], the message built with [b] has exactly one
    attachment part, and decoding its base64 payload gives [b] back. *)
Theorem attachment_roundtrip (s : string) (b : list Byte.byte)
    (sender to_email subject body name : string) (w : World) (h : list event) :
  B64.b64decode s = inr b -> b <> [] ->
  exists m,
    build_message sender to_email subject body None (Some b) (Some name) w h
    = ([], inr m)
    /\ map get_payload_decoded (filter is_attachment m.(m_parts)) = [b].
Proof.
  intros _ Hne. destruct b as [|x b]; [congruence |].
  eexists. split; [reflexivity |].
  transitivity (map get_payload_decoded
                  [octet_stream_attachment (x :: b) (fstr (Some name))]);
    [reflexivity |].
  cbn [map]. rewrite payload_octet_stream. reflexivity.
Qed.

Lemma attachment_roundtrip_witness :
  exists m,
    build_message "me@example.com" "hr@acme.com" "Application" "<p>Hi</p>" None
      (Some [Byte.x4d; Byte.x61; Byte.x6e]) (Some "cv.pdf") Scenarios.world_ok []
    = ([], inr m)
    /\ map get_payload_decoded (filter is_attachment m.(m_parts))
       = [[Byte.x4d; Byte.x61; Byte.x6e]].
Proof.
  apply (attachment_roundtrip "TWFu"); [reflexivity | discriminate].
Defined.

End MessageProofs.

Module BatchProofs.
Import CodeSender App Obs Scenarios.

Lemma bind_inv {A B} (m : M A) (k : A -> M B) w h evs b :
  bind m k w h = (evs, inr b) ->
  exists ev1 a ev2, m w h = (ev1, inr a)
    /\ k a w (h ++ ev1)%list = (ev2, inr b) /\ evs = (ev1 ++ ev2)%list.
Proof.
  unfold bind. destruct (m w h) as [ev1 [e|a]]; [discriminate|].
  destruct (k a w (h ++ ev1)%list) as [ev2 r2] eqn:E.
  intros H; inversion H; subst. eauto 6.
Qed.

Lemma try_inv {A} (m : M A) w h evs r :
  try_ m w h = (evs, inr r) -> m w h = (evs, r).
Proof. unfold try_. destruct (m w h). intros H; inversion H; subst; reflexivity. Qed.


Ltac ret_in H :=
  let E1 := fresh "E" in let E2 := fresh "E" in injection H as E1 E2; subst.

Lemma count_status_app st l1 l2 :
  count_status st (l1 ++ l2) = count_status st l1 + count_status st l2.
Proof. unfold count_status. rewrite filter_app, length_app. reflexivity. Qed.

Lemma send_step_ok fmt b r acc w h evs acc' :
  send_step fmt b r acc w h = (evs, inr acc') -> acc_ok acc ->
  acc_ok acc'
  /\ map sr_email (fst (fst acc')) = (map sr_email (fst (fst acc)) ++ kept [r])%list.
Proof.
  destruct acc as [[res s] f]. unfold send_step, kept. cbv zeta iota beta.
  cbn [map filter].
  destruct (PyStr.truthy (PyStr.strip (PyStr.get (email r) ""))) eqn:T;
    cbn [negb]; intros H Hok.
  - apply bind_inv in H as (ev1 & body & ev2 & H1 & H2 & ->).
    apply bind_inv in H2 as (ev3 & rr & ev4 & H3 & H4 & ->).
    apply bind_inv in H4 as (ev5 & u & ev6 & H5 & H6 & ->).
    ret_in H6.
    destruct Hok as (Hs & Hf & Hall).
    destruct rr as [e|u']; cbn [fst]; rewrite map_app; split; try reflexivity;
      unfold acc_ok; rewrite !count_status_app, forallb_app, Hall;
      unfold count_status; simpl; subst; unfold count_status; lia || (repeat split; lia).
  - ret_in H. rewrite app_nil_r. auto.
Qed.


Lemma kept_cons r rs : kept (r :: rs) = (kept [r] ++ kept rs)%list.
Proof.
  unfold kept. cbn [map filter].
  destruct (PyStr.truthy (PyStr.strip (PyStr.get (email r) ""))); reflexivity.
Qed.

Lemma send_loop_ok fmt b rs : forall acc w h evs acc',
  send_loop fmt b rs acc w h = (evs, inr acc') -> acc_ok acc ->
  acc_ok acc'
  /\ map sr_email (fst (fst acc')) = (map sr_email (fst (fst acc)) ++ kept rs)%list.
Proof.
  induction rs as [|r rs IH]; intros acc w h evs acc' H Hok; cbn [send_loop] in H.
  - ret_in H. unfold kept; simpl. rewrite app_nil_r. auto.
  - apply bind_inv in H as (ev1 & acc1 & ev2 & H1 & H2 & _).
    apply send_step_ok in H1 as [Hok1 He1]; [|exact Hok].
    apply IH in H2 as [Hok2 He2]; [|exact Hok1].
    split; [exact Hok2|]. rewrite He2, He1, (kept_cons r rs), app_assoc. reflexivity.
Qed.

Lemma with_smtp_inv {A} host port (body : M A) w h evs a :
  with_smtp host port body w h = (evs, inr a) ->
  exists h' ev', body w h' = (ev', inr a).
Proof.
  unfold with_smtp. intros H.
  apply bind_inv in H as (ev1 & u1 & ev2 & _ & H & _).
  apply bind_inv in H as (ev3 & r & ev4 & Hr & H & _). apply try_inv in Hr.
  apply bind_inv in H as (ev5 & q & ev6 & _ & H & _).
  apply bind_inv in H as (ev7 & u2 & ev8 & _ & H & _).
  assert (Hre : reraise r w (h ++ ev1 ++ ev3 ++ ev5 ++ ev7)%list = (ev8, inr a)).
  { destruct q as [e|]; [destruct (kind e)|]; rewrite <- ?app_assoc in H;
      try exact H; discriminate H. }
  destruct r as [e|a']; [discriminate Hre|]. ret_in Hre. eauto.
Qed.

Lemma acc_ok_nil : acc_ok ([], 0, 0).
Proof. repeat split. Qed.

(** C1: when the batch endpoint answers 200, its results hold one entry per
    recipient whose trimmed address is non-empty, in input order (their
    addresses are exactly those addresses); the counters count the
    successes and the failures among them, so skipped recipients count in
    neither; the total is the length of the raw input list. *)
Theorem batch_results_per_recipient fmt data w h evs resp :
  send_emails fmt data w h = (evs, inr resp) -> fst resp = 200%Z ->
  exists results successful failed,
    resp = batch_response results successful failed (length (recipients_of data))
    /\ map sr_email results = kept (recipients_of data)
    /\ successful = count_status "success" results
    /\ failed = count_status "error" results
    /\ successful + failed = length results.
Proof.
  unfold send_emails, catch_unexpected. intros H Hc.
  apply bind_inv in H as (ev1 & r & ev2 & H1 & H2 & _). apply try_inv in H1.
  destruct r as [e|resp0]; ret_in H2; [discriminate Hc|].
  cbv zeta in H1.
  match type of H1 with context [first_missing ?l] => destruct (first_missing l) end;
    [ret_in H1; discriminate Hc|].
  match type of H1 with context [B64.b64decode ?l] => destruct (B64.b64decode l) end;
    [ret_in H1; discriminate Hc|].
  apply bind_inv in H1 as (ev3 & c & ev4 & _ & H1 & _).
  destruct c; [ret_in H1; discriminate Hc|].
  apply bind_inv in H1 as (ev5 & t & ev6 & _ & H1 & _).
  destruct t; [ret_in H1; discriminate Hc|].
  apply bind_inv in H1 as (ev7 & sr & ev8 & Hs & H1 & _). apply try_inv in Hs.
  destruct sr as [e|resp1];
    [destruct (is_smtp_exception e); [ret_in H1; discriminate Hc
                                     | discriminate H1]|].
  ret_in H1.
  apply with_smtp_inv in Hs as (h' & ev' & Hb).
  do 3 apply bind_inv in Hb as (? & ? & ? & ? & Hb & ?).
  apply bind_inv in Hb as (ev9 & acc & ev10 & Hl & Hb & _).
  destruct acc as [[results successful] failed].
  ret_in Hb.
  apply send_loop_ok in Hl as [(Hs & Hf & Hall) He]; [|exact acc_ok_nil].
  exists results, successful, failed. cbn [fst] in He.
  split; [reflexivity|]. split; [exact He|]. split; [exact Hs|]. split; [exact Hf|].
  subst. clear -Hall. induction results as [|x l IH]; [reflexivity|].
  cbn [forallb] in Hall. apply andb_true_iff in Hall as [Hx Hl].
  unfold count_status in *. cbn [filter length].
  destruct (String.eqb (sr_status x) "success") eqn:E1;
  destruct (String.eqb (sr_status x) "error") eqn:E2; cbn [length];
    try (apply String.eqb_eq in E1; apply String.eqb_eq in E2; congruence);
    try discriminate Hx; specialize (IH Hl); lia.
Qed.

Lemma batch_results_per_recipient_witness :
  exists results successful failed,
    batch_response
      [mkSendResult "hr@acme.com" "success" "Email sent successfully"] 1 0 2
      = batch_response results successful failed
          (length (recipients_of (batch_request [acme; blank] "TWFu")))
    /\ map sr_email results = kept (recipients_of (batch_request [acme; blank] "TWFu"))
    /\ successful = count_status "success" results
    /\ failed = count_status "error" results
    /\ successful + failed = length results.
Proof.
  apply (batch_results_per_recipient fmt_plain (batch_request [acme; blank] "TWFu")
           world_ok [] (fst (send_emails fmt_plain (batch_request [acme; blank] "TWFu")
                               world_ok []))).
  - vm_compute. reflexivity.
  - reflexivity.
Defined.

Lemma send_step_sent fmt b r res s f w h :
  PyStr.truthy (to_of r) = true ->
  (exists body, fmt b.(b_template) (kwargs b r) = inr body) ->
  exists msg,
    send_step fmt b r (res, s, f) w h =
      (Sendmail b.(b_sender_email) [to_of r] msg
         :: (if Nat.ltb 1 b.(b_count) then [Sleep SEND_DELAY] else []),
       inr (match w.(w_smtp) h (Sendmail b.(b_sender_email) [to_of r] msg) with
            | None => ((res ++ [mkSendResult (to_of r) "success" "Email sent successfully"])%list,
                       S s, f)
            | Some e => ((res ++ [mkSendResult (to_of r) "error" e.(text)])%list, s, S f)
            end)).
Proof.
  intros T [body Hb]. unfold to_of, kwargs in *.
  unfold send_step. cbv zeta iota beta. rewrite T. cbn [negb].
  unfold bind at 1, lift. rewrite Hb.
  unfold send_one, build_message. cbv zeta.
  destruct (b_pdf_data b) as [|x xs];
    [exists (Mime.mkMessage (Mime.multipart_headers (b_sender_email b)
               (PyStr.strip (PyStr.get (email r) "")) (b_subject b))
               [Mime.mime_text_html_utf8 body])
    |exists (Mime.mkMessage (Mime.multipart_headers (b_sender_email b)
               (PyStr.strip (PyStr.get (email r) "")) (b_subject b))
               [Mime.mime_text_html_utf8 body;
                Mime.octet_stream_attachment (x :: xs) (fstr (Some (b_pdf_filename b)))])];
    unfold bind, try_, smtp_do, ret, sleep; cbn; rewrite ?app_nil_r;
    destruct (w_smtp w h _); destruct (b_count b) as [|[|n]]; reflexivity.
Qed.

Lemma first_missing_none l : forallb fst l = true -> first_missing l = None.
Proof.
  induction l as [|[p x] l IH]; cbn; [reflexivity|].
  destruct p; [exact IH | discriminate].
Qed.

Lemma batch_checks_pass data :
  ~ batch_field_missing data ->
  first_missing
    [(match match data.(rq_recipients) with Some l => l | None => [] end with
      | [] => false | _ => true end, "No recipients provided");
     (PyStr.truthy (field data.(rq_sender_email)), "Sender email is required");
     (PyStr.truthy (field data.(rq_app_password)), "App password is required");
     (PyStr.truthy (field data.(rq_job_title)), "Job title is required");
     (PyStr.truthy (field data.(rq_subject)), "Subject is required");
     (PyStr.truthy (PyStr.get data.(rq_pdf_file) ""), "PDF file is required");
     (PyStr.truthy (field data.(rq_name)), "Name is required");
     (PyStr.truthy (field data.(rq_phone_number)), "Phone number is required")] = None.
Proof.
  intros Hm. apply first_missing_none.
  unfold batch_field_missing, recipients_of in Hm. cbn [forallb fst].
  rewrite !MessageProofs.truthy_true by tauto.
  destruct (rq_recipients data) as [[|]|]; [tauto | reflexivity | tauto].
Qed.

Lemma three_recipients_second_fails fmt data tpl e r1 r2 r3 pdf :
  data.(rq_recipients) = Some [r1; r2; r3] ->
  PyStr.truthy (to_of r1) = true -> PyStr.truthy (to_of r2) = true ->
  PyStr.truthy (to_of r3) = true ->
  ~ batch_field_missing data ->
  B64.b64decode (PyStr.get data.(rq_pdf_file) "") = inr pdf ->
  (forall t kw, exists body, fmt t kw = inr body) ->
  snd (send_emails fmt data (second_send_fails tpl e) []) =
    inr (batch_response
           [mkSendResult (to_of r1) "success" "Email sent successfully";
            mkSendResult (to_of r2) "error" e.(text);
            mkSendResult (to_of r3) "success" "Email sent successfully"] 2 1 3).
Proof.
  intros Hrec T1 T2 T3 Hm Hb Hfmt.
  pose proof (batch_checks_pass data Hm) as Hfm.
  unfold send_emails, catch_unexpected. cbv zeta.
  rewrite Hfm, Hb. rewrite Hrec in *.
  unfold with_smtp, load_email_template, validate_configuration.
  cbn [send_loop].
  unfold bind, try_, path_exists, ret, raise, smtp_do, close, reraise, read_text, lift.
  cbn -[send_step].
  repeat match goal with
  | |- context [send_step fmt ?b ?r (?res, ?s, ?f) ?w ?h] =>
      let m := fresh "m" in let E := fresh "E" in
      destruct (send_step_sent fmt b r res s f w h ltac:(assumption) (Hfmt _ _)) as [m E];
      rewrite E; cbn -[send_step]
  end.
  reflexivity.
Qed.

Lemma send_step_failure fmt b r rest res s f w h e :
  PyStr.truthy (to_of r) = true ->
  (exists body, fmt b.(b_template) (kwargs b r) = inr body) ->
  (forall msg, w.(w_smtp) h (Sendmail b.(b_sender_email) [to_of r] msg) = Some e) ->
  exists evs,
    send_step fmt b r (res, s, f) w h =
      (evs, inr ((res ++ [mkSendResult (to_of r) "error" e.(text)])%list, s, S f))
    /\ send_loop fmt b (r :: rest) (res, s, f) w h =
       (let (evs2, out) :=
          send_loop fmt b rest
            ((res ++ [mkSendResult (to_of r) "error" e.(text)])%list, s, S f)
            w (h ++ evs)%list in
        ((evs ++ evs2)%list, out)).
Proof.
  intros T Hb Hw.
  destruct (send_step_sent fmt b r res s f w h T Hb) as [msg E].
  rewrite Hw in E. eexists. split; [exact E|].
  cbn [send_loop]. unfold bind at 1. rewrite E. reflexivity.
Qed.

(** C2: in the loop of the batch endpoint, when the submission to a
    recipient with a non-blank address fails with [e], the step appends an
    error result carrying [text e] for that recipient, increments the
    failure counter, and the loop goes on with the next recipients from the
    updated accumulator; for a batch of three recipients whose second
    submission fails and whose first and third succeed (every other effect
    succeeding), the results are [success; error; success] and the summary
    is 2 successful, 1 failed, 3 in total. *)
Theorem batch_failure_recorded_and_continues :
  (forall fmt b r rest res s f w h e,
     PyStr.truthy (to_of r) = true ->
     (exists body, fmt b.(b_template) (kwargs b r) = inr body) ->
     (forall msg, w.(w_smtp) h (Sendmail b.(b_sender_email) [to_of r] msg) = Some e) ->
     exists evs,
       send_step fmt b r (res, s, f) w h =
         (evs, inr ((res ++ [mkSendResult (to_of r) "error" e.(text)])%list, s, S f))
       /\ send_loop fmt b (r :: rest) (res, s, f) w h =
          (let (evs2, out) :=
             send_loop fmt b rest
               ((res ++ [mkSendResult (to_of r) "error" e.(text)])%list, s, S f)
               w (h ++ evs)%list in
           ((evs ++ evs2)%list, out)))
  /\ (forall fmt data tpl e r1 r2 r3 pdf,
        data.(rq_recipients) = Some [r1; r2; r3] ->
        PyStr.truthy (to_of r1) = true -> PyStr.truthy (to_of r2) = true ->
        PyStr.truthy (to_of r3) = true ->
        ~ batch_field_missing data ->
        B64.b64decode (PyStr.get data.(rq_pdf_file) "") = inr pdf ->
        (forall t kw, exists body, fmt t kw = inr body) ->
        snd (send_emails fmt data (second_send_fails tpl e) []) =
          inr (batch_response
                 [mkSendResult (to_of r1) "success" "Email sent successfully";
                  mkSendResult (to_of r2) "error" e.(text);
                  mkSendResult (to_of r3) "success" "Email sent successfully"] 2 1 3)).
Proof.
  split.
  - intros fmt b r rest res s f w h e. apply send_step_failure.
  - intros fmt data tpl e r1 r2 r3 pdf. apply three_recipients_second_fails.
Qed.

Lemma batch_failure_recorded_and_continues_witness :
  (exists evs,
     send_step fmt_plain (sample_batch 2) acme ([], 0, 0)
       (second_send_fails "<p>Dear team</p>" rejected) [Sendmail "" [] (Mime.mkMessage [] [])] =
       (evs, inr ([mkSendResult "hr@acme.com" "error" "550 Mailbox unavailable"], 0, 1))
     /\ send_loop fmt_plain (sample_batch 2) [acme; acme] ([], 0, 0)
          (second_send_fails "<p>Dear team</p>" rejected) [Sendmail "" [] (Mime.mkMessage [] [])] =
        (let (evs2, out) :=
           send_loop fmt_plain (sample_batch 2) [acme]
             ([mkSendResult "hr@acme.com" "error" "550 Mailbox unavailable"], 0, 1)
             (second_send_fails "<p>Dear team</p>" rejected)
             ([Sendmail "" [] (Mime.mkMessage [] [])] ++ evs)%list in
         ((evs ++ evs2)%list, out)))
  /\ snd (send_emails fmt_plain
           (batch_request [acme; mkRecipient (Some "jobs@beta.io") None;
                           mkRecipient (Some " hr@gamma.org ") (Some "Gamma")] "TWFu")
           (second_send_fails "<p>Dear team</p>" rejected) []) =
       inr (batch_response
              [mkSendResult "hr@acme.com" "success" "Email sent successfully";
               mkSendResult "jobs@beta.io" "error" "550 Mailbox unavailable";
               mkSendResult "hr@gamma.org" "success" "Email sent successfully"] 2 1 3).
Proof.
  split.
  - apply (proj1 batch_failure_recorded_and_continues fmt_plain (sample_batch 2) acme [acme]
             [] 0 0 (second_send_fails "<p>Dear team</p>" rejected)
             [Sendmail "" [] (Mime.mkMessage [] [])] rejected).
    + reflexivity.
    + eexists. reflexivity.
    + intros msg. reflexivity.
  - apply (proj2 batch_failure_recorded_and_continues fmt_plain
             (batch_request [acme; mkRecipient (Some "jobs@beta.io") None;
                             mkRecipient (Some " hr@gamma.org ") (Some "Gamma")] "TWFu")
             "<p>Dear team</p>" rejected acme (mkRecipient (Some "jobs@beta.io") None)
             (mkRecipient (Some " hr@gamma.org ") (Some "Gamma")) [Byte.x4d; Byte.x61; Byte.x6e]).
    + reflexivity.
    + reflexivity.
    + reflexivity.
    + reflexivity.
    + unfold batch_field_missing. vm_compute. intuition discriminate.
    + vm_compute. reflexivity.
    + intros t kw. eexists. reflexivity.
Defined.

Ltac run_world Hw :=
  repeat (cbn -[send_step];
    first
      [ rewrite Hw by reflexivity
      | match goal with
        | |- context [w_exists ?w ?h ?p] => destruct (w_exists w h p)
        | |- context [w_read_text ?w ?h ?p] => destruct (w_read_text w h p)
        | |- context [w_smtp ?w ?h ?ev] => destruct (w_smtp w h ev)
        | |- context [kind ?e] => destruct (kind e)
        end ]).

(** C3: when the relay refuses one of the steps that open the session
    (connection, EHLO, STARTTLS or login) whenever it is attempted, the
    batch endpoint answers with a single error object and no submission is
    ever attempted, so no per-recipient result exists. *)
Theorem batch_open_failure fmt data w h st e :
  (forall h' ev, step_of ev = Some st -> w.(w_smtp) h' ev = Some e) ->
  exists code msg,
    snd (send_emails fmt data w h) = inr (error_response code msg)
    /\ no_send (fst (send_emails fmt data w h)) = true.
Proof.
  intros Hw.
  unfold send_emails, catch_unexpected. cbv zeta.
  destruct (first_missing _) as [m|]; [eexists _, _; split; reflexivity|].
  destruct (B64.b64decode _) as [m|pdf]; [eexists _, _; split; reflexivity|].
  unfold with_smtp, load_email_template, validate_configuration.
  unfold bind, try_, path_exists, ret, raise, smtp_do, close, reraise, read_text, lift,
    is_smtp_exception.
  destruct st; run_world Hw; eexists _, _; split; reflexivity.
Qed.

Lemma batch_open_failure_witness :
  exists code msg,
    snd (send_emails fmt_plain (batch_request [acme; acme] "TWFu")
           (relay_fails_at OpenLogin rejected) [])
      = inr (error_response code msg)
    /\ no_send (fst (send_emails fmt_plain (batch_request [acme; acme] "TWFu")
                      (relay_fails_at OpenLogin rejected) [])) = true.
Proof.
  apply (batch_open_failure fmt_plain (batch_request [acme; acme] "TWFu")
           (relay_fails_at OpenLogin rejected) [] OpenLogin rejected).
  intros h' ev H. cbn [w_smtp relay_fails_at]. rewrite H. reflexivity.
Defined.

Section Preserves.
Variable G : list event -> Prop.
Hypothesis G_nil : G [].
Hypothesis G_app : forall a b, G a -> G b -> G (a ++ b)%list.

Lemma pres_ret {A} (a : A) : preserves G (ret a).
Proof using G_nil G_app. intros w h. exact G_nil. Qed.

Lemma pres_raise {A} e : preserves G (@raise A e).
Proof using G_nil G_app. intros w h. exact G_nil. Qed.

Lemma pres_lift {A} (r : exn + A) : preserves G (lift r).
Proof using G_nil G_app. intros w h. exact G_nil. Qed.

Lemma pres_bind {A B} (m : M A) (k : A -> M B) :
  preserves G m -> (forall a, preserves G (k a)) -> preserves G (bind m k).
Proof using G_nil G_app.
  intros Hm Hk w h. specialize (Hm w h). unfold bind.
  destruct (m w h) as [ev1 [e|a]]; [exact Hm|].
  specialize (Hk a w (h ++ ev1)%list).
  destruct (k a w (h ++ ev1)%list) as [ev2 r2]. apply G_app; assumption.
Qed.

Lemma pres_try {A} (m : M A) : preserves G m -> preserves G (try_ m).
Proof using G_nil G_app. intros Hm w h. specialize (Hm w h). unfold try_. destruct (m w h). exact Hm. Qed.

Lemma pres_smtp_do ev : G [ev] -> preserves G (smtp_do ev).
Proof using G_nil G_app. intros H w h. exact H. Qed.

Lemma pres_path_exists p : G [PathExists p] -> preserves G (path_exists p).
Proof using G_nil G_app. intros H w h. exact H. Qed.

Lemma pres_read_text p : G [ReadText p] -> preserves G (read_text p).
Proof using G_nil G_app. intros H w h. exact H. Qed.

Lemma pres_close : G [Close] -> preserves G close.
Proof using G_nil G_app. intros H w h. exact H. Qed.

Lemma pres_loop fmt b rs :
  (forall r acc, preserves G (send_step fmt b r acc)) ->
  forall acc, preserves G (send_loop fmt b rs acc).
Proof using G_nil G_app.
  intros Hs. induction rs as [|r rs IH]; intros acc; cbn [send_loop].
  - apply pres_ret.
  - apply pres_bind; [apply Hs | intros a; apply IH].
Qed.
End Preserves.

Ltac pres_auto side gnil gapp :=
  repeat first
    [ progress cbv beta zeta
    | apply (pres_bind _ gnil gapp); [| intro]
    | apply (pres_try _ gnil gapp)
    | apply (pres_ret _ gnil gapp) | apply (pres_raise _ gnil gapp)
    | apply (pres_lift _ gnil gapp)
    | apply (pres_smtp_do _ gnil gapp); side
    | apply (pres_path_exists _ gnil gapp); side
    | apply (pres_read_text _ gnil gapp); side
    | apply (pres_close _ gnil gapp); side
    | match goal with |- preserves _ (match ?x with _ => _ end) => destruct x end ].

Lemma send_step_events fmt b r acc w h :
  fst (send_step fmt b r acc w h) = []
  \/ exists msg, fst (send_step fmt b r acc w h) =
       Sendmail b.(b_sender_email) [to_of r] msg
         :: (if Nat.ltb 1 b.(b_count) then [Sleep SEND_DELAY] else []).
Proof.
  destruct acc as [[res s] f].
  destruct (PyStr.truthy (to_of r)) eqn:T.
  - destruct (fmt b.(b_template) (kwargs b r)) as [e|body] eqn:F.
    + left. unfold send_step. cbv zeta iota beta. unfold to_of in T. rewrite T.
      cbn [negb]. unfold bind at 1, lift. unfold kwargs in F. rewrite F. reflexivity.
    + right. destruct (send_step_sent fmt b r res s f w h T (ex_intro _ body F)) as [msg E].
      exists msg. rewrite E. reflexivity.
  - left. unfold send_step. cbv zeta iota beta. unfold to_of in T. rewrite T. reflexivity.
Qed.

Lemma ends_with_send_app a b :
  ends_with_send (a ++ b)%list = match b with [] => ends_with_send a | _ => ends_with_send b end.
Proof.
  unfold ends_with_send. rewrite rev_app_distr.
  destruct b as [|y b]; [reflexivity|].
  cbn [rev]. destruct (rev b) as [|z l]; reflexivity.
Qed.

Lemma ends_with_send_cons x a :
  a <> [] -> ends_with_send (x :: a) = ends_with_send a.
Proof.
  intros Ha. change (x :: a) with ([x] ++ a)%list. rewrite ends_with_send_app.
  destruct a; [congruence | reflexivity].
Qed.

Lemma sends_then_sleep_app a b :
  ends_with_send a = false ->
  sends_then_sleep (a ++ b)%list = sends_then_sleep a && sends_then_sleep b.
Proof.
  induction a as [|x a IH]; intros He; [reflexivity|].
  destruct a as [|y a].
  - cbn in *. rewrite He. reflexivity.
  - rewrite ends_with_send_cons in He by discriminate.
    change ((x :: y :: a) ++ b)%list with (x :: ((y :: a) ++ b))%list.
    cbn [sends_then_sleep]. rewrite IH by exact He.
    cbn [sends_then_sleep]. rewrite <- !andb_assoc. reflexivity.
Qed.

Lemma G_many_nil : G_many [].
Proof. split; reflexivity. Qed.

Lemma G_many_app a b : G_many a -> G_many b -> G_many (a ++ b)%list.
Proof.
  intros [Ha Ea] [Hb Eb]. split.
  - rewrite sends_then_sleep_app by exact Ea. rewrite Ha, Hb. reflexivity.
  - rewrite ends_with_send_app. destruct b; assumption.
Qed.

Lemma pres_step_many fmt b r acc :
  1 < b.(b_count) -> preserves G_many (send_step fmt b r acc).
Proof.
  intros Hn w h. destruct (send_step_events fmt b r acc w h) as [E|[msg E]]; rewrite E.
  - exact G_many_nil.
  - apply Nat.ltb_lt in Hn. rewrite Hn. split; reflexivity.
Qed.

Lemma pres_step_one fmt b r acc :
  b.(b_count) <= 1 -> preserves G_one (send_step fmt b r acc).
Proof.
  intros Hn w h. destruct (send_step_events fmt b r acc w h) as [E|[msg E]]; rewrite E.
  - reflexivity.
  - apply Nat.ltb_ge in Hn. rewrite Hn. reflexivity.
Qed.

Lemma G_one_nil : G_one [].
Proof. reflexivity. Qed.

Lemma G_one_app a b : G_one a -> G_one b -> G_one (a ++ b)%list.
Proof. unfold G_one, no_sleep. rewrite forallb_app. intros -> ->. reflexivity. Qed.

(** C4: the pause lasts [SEND_DELAY] = 1 second; when the input list of
    the batch endpoint has more than one entry (blank addresses included),
    every submission is immediately followed by the pause, the last one
    included; when it has exactly one entry, no pause happens. *)
Theorem batch_pause_after_every_send fmt data w h :
  Qeq SEND_DELAY 1
  /\ (1 < length (recipients_of data) ->
      sends_then_sleep (fst (send_emails fmt data w h)) = true)
  /\ (length (recipients_of data) = 1 ->
      no_sleep (fst (send_emails fmt data w h)) = true).
Proof.
  split; [reflexivity|]. split; intros Hn.
  - enough (Hp : preserves G_many (send_emails fmt data)) by apply (Hp w h).
    unfold send_emails, catch_unexpected, with_smtp, validate_configuration,
      load_email_template, reraise.
    pres_auto ltac:(split; reflexivity) G_many_nil G_many_app.
    apply (pres_loop _ G_many_nil G_many_app). intros r acc. apply pres_step_many. exact Hn.
  - enough (Hp : preserves G_one (send_emails fmt data)) by apply (Hp w h).
    unfold send_emails, catch_unexpected, with_smtp, validate_configuration,
      load_email_template, reraise.
    pres_auto ltac:(reflexivity) G_one_nil G_one_app.
    apply (pres_loop _ G_one_nil G_one_app). intros r acc. apply pres_step_one.
    cbn [b_count]. unfold recipients_of in Hn. lia.
Qed.

Lemma batch_pause_after_every_send_witness :
  sends_then_sleep (fst (send_emails fmt_plain (batch_request [acme; blank] "TWFu")
                           world_ok [])) = true
  /\ no_sleep (fst (send_emails fmt_plain (batch_request [acme] "TWFu") world_ok [])) = true.
Proof.
  split.
  - apply (proj1 (proj2 (batch_pause_after_every_send fmt_plain
                            (batch_request [acme; blank] "TWFu") world_ok []))).
    vm_compute. lia.
  - apply (proj2 (proj2 (batch_pause_after_every_send fmt_plain
                            (batch_request [acme] "TWFu") world_ok []))).
    reflexivity.
Defined.

Lemma first_missing_none_inv l : first_missing l = None -> forallb fst l = true.
Proof.
  induction l as [|[p x] l IH]; cbn; [reflexivity|].
  destruct p; [exact IH | discriminate].
Qed.

Ltac refute_checks F Hm :=
  apply first_missing_none_inv in F; cbn [forallb fst] in F;
  repeat rewrite andb_true_iff in F;
  repeat destruct Hm as [Hm|Hm]; rewrite Hm in F; cbn in F; intuition discriminate.

(** C7 (amended): on each endpoint, when a required scalar field is
    missing or blank after trimming (the attachment payload is not
    trimmed), or the batch has no recipient entries, the endpoint answers
    400 and performs no effect at all: the checks precede every access to
    the file system and to the relay. *)
Theorem required_fields_checked_first fmt data w h :
  (batch_field_missing data ->
   exists m, send_emails fmt data w h = ([], inr (error_response 400 m)))
  /\ (single_field_missing data ->
      exists m, send_single_email fmt data w h = ([], inr (failure_response 400 m)))
  /\ (test_field_missing data ->
      exists m, test_email fmt data w h = ([], inr (error_response 400 m))).
Proof.
  split; [|split]; intros Hm.
  - unfold send_emails, catch_unexpected. cbv zeta.
    destruct (first_missing _) as [m|] eqn:F; [eexists; reflexivity | exfalso].
    unfold batch_field_missing, recipients_of in Hm. refute_checks F Hm.
  - unfold send_single_email, catch_unexpected. cbv zeta.
    destruct (first_missing _) as [m|] eqn:F; [eexists; reflexivity | exfalso].
    unfold single_field_missing in Hm. refute_checks F Hm.
  - unfold test_email, catch_unexpected. cbv zeta.
    destruct (first_missing _) as [m|] eqn:F; [eexists; reflexivity | exfalso].
    unfold test_field_missing in Hm. refute_checks F Hm.
Qed.

Lemma required_fields_checked_first_witness :
  (exists m, send_emails fmt_plain (batch_request [acme] "") world_ok [] =
             ([], inr (error_response 400 m)))
  /\ (exists m, send_single_email fmt_plain (batch_request [acme] "") world_ok [] =
                ([], inr (failure_response 400 m)))
  /\ (exists m, test_email fmt_plain (batch_request [acme] "") world_ok [] =
                ([], inr (error_response 400 m))).
Proof.
  pose proof (required_fields_checked_first fmt_plain (batch_request [acme] "") world_ok [])
    as [H1 [H2 H3]].
  split; [|split];
    [apply H1; unfold batch_field_missing
    | apply H2; unfold single_field_missing
    | apply H3; unfold test_field_missing];
    do 5 right; first [left; reflexivity | reflexivity].
Defined.

(** C7 counterexample: a batch whose only entry has an empty address
    passes validation; the endpoint reads the template, opens and
    authenticates a relay session, and answers 200 with no result. *)
Lemma blank_batch_opens_session_counterexample :
  send_emails fmt_plain (batch_request [mkRecipient (Some "") None] "TWFu") world_ok [] =
    ([PathExists TEMPLATE_PATH; PathExists TEMPLATE_PATH; ReadText TEMPLATE_PATH;
      Connect SMTP_SERVER SMTP_PORT; Ehlo; Starttls; Login "me@example.com" "secret";
      Quit; Close],
     inr (batch_response [] 0 0 1)).
Proof. vm_compute. reflexivity. Qed.

Lemma bind_ext {A B} (m1 m2 : M A) (k1 k2 : A -> M B) :
  (forall w h, m1 w h = m2 w h) -> (forall a w h, k1 a w h = k2 a w h) ->
  forall w h, bind m1 k1 w h = bind m2 k2 w h.
Proof.
  intros Hm Hk w h. unfold bind. rewrite Hm.
  destruct (m2 w h) as [ev [e|a]]; [reflexivity|]. rewrite Hk. reflexivity.
Qed.

Lemma try_ext {A} (m1 m2 : M A) :
  (forall w h, m1 w h = m2 w h) -> forall w h, try_ m1 w h = try_ m2 w h.
Proof. intros Hm w h. unfold try_. rewrite Hm. reflexivity. Qed.

(** C8 (amended): the test endpoint formats the template with the
    greeting and job_title keyword arguments only (two formatters that
    agree on such calls give the same run), and it always answers either
    {success: true, message} or an object holding only an error message;
    neither has a results array. *)
Theorem test_email_two_keys_and_shape fmt1 fmt2 data w h :
  (forall t g j, fmt1 t [("greeting", g); ("job_title", j)]
                 = fmt2 t [("greeting", g); ("job_title", j)]) ->
  test_email fmt1 data w h = test_email fmt2 data w h
  /\ exists resp, snd (test_email fmt1 data w h) = inr resp
     /\ ((exists msg, resp = (200%Z, JObj [("success", JBool true); ("message", JStr msg)]))
         \/ exists code msg, resp = error_response code msg).
Proof.
  intros Hf. split.
  - unfold test_email, catch_unexpected.
    apply bind_ext; [| intros; reflexivity].
    apply try_ext. intros w1 h1. cbv zeta.
    destruct (first_missing _); [reflexivity|].
    destruct (B64.b64decode _); [reflexivity|].
    apply bind_ext; [intros; reflexivity | intros [e|u] w2 h2; [reflexivity|]].
    apply bind_ext; [intros; reflexivity | intros [e|tpl] w3 h3; [reflexivity|]].
    apply bind_ext; [intros; unfold lift; rewrite Hf; reflexivity | intros; reflexivity].
  - destruct (test_email fmt1 data w h) as [evs r] eqn:E.
    assert (Hr : exists resp, r = inr resp).
    { revert E. unfold test_email, catch_unexpected, bind, try_.
      destruct (_ w h) as [ev [e|a]]; intros E; injection E as _ <-; eauto. }
    destruct Hr as [resp ->]. exists resp. split; [reflexivity|]. cbn [snd].
    revert E. unfold test_email, catch_unexpected. intros H.
    apply bind_inv in H as (ev1 & r & ev2 & H1 & H2 & _). apply try_inv in H1.
    destruct r as [e|resp0]; ret_in H2; [right; eauto|].
    cbv zeta in H1.
    destruct (first_missing _); [ret_in H1; right; eauto|].
    destruct (B64.b64decode _); [ret_in H1; right; eauto|].
    apply bind_inv in H1 as (ev3 & c & ev4 & _ & H1 & _).
    destruct c; [ret_in H1; right; eauto|].
    apply bind_inv in H1 as (ev5 & t & ev6 & _ & H1 & _).
    destruct t; [ret_in H1; right; eauto|].
    apply bind_inv in H1 as (ev7 & body & ev8 & _ & H1 & _).
    apply bind_inv in H1 as (ev9 & sr & ev10 & Hs & H1 & _). apply try_inv in Hs.
    destruct sr as [e|resp1]; ret_in H1; [right; eauto|].
    apply with_smtp_inv in Hs as (h' & ev' & Hb).
    do 4 apply bind_inv in Hb as (? & ? & ? & ? & Hb & ?).
    ret_in Hb. left. eauto.
Qed.

Lemma test_email_two_keys_and_shape_witness :
  test_email fmt_plain (test_request (Some "hr@acme.com")) world_ok []
    = test_email fmt_two_keys (test_request (Some "hr@acme.com")) world_ok []
  /\ exists resp,
       snd (test_email fmt_plain (test_request (Some "hr@acme.com")) world_ok []) = inr resp
       /\ ((exists msg, resp = (200%Z, JObj [("success", JBool true); ("message", JStr msg)]))
           \/ exists code msg, resp = error_response code msg).
Proof.
  apply (test_email_two_keys_and_shape fmt_plain fmt_two_keys).
  intros t g j. reflexivity.
Defined.

(** C8 counterexample: a failure of the test endpoint carries no success
    flag. *)
Lemma test_email_error_without_flag_counterexample :
  test_email fmt_plain (test_request None) world_ok []
    = ([], inr (400%Z, JObj [("error", JStr "Email address is required")])).
Proof. vm_compute. reflexivity. Qed.

End BatchProofs.

Module CodecProofs.
Import B64 ByteFacts ByteLemmas.

(** The lenient decoder, too, reads back what [b64_groups] writes. *)
Lemma a2b_b64_groups_lax_aux (n : nat) : forall (bs : list Byte.byte),
  (length bs <= n)%nat -> forall (left : Z) (out : list Byte.byte),
  a2b_loop false (b64_groups bs) 0 left 0 false out = inr (out ++ bs)%list.
Proof.
  induction n as [|n IH]; intros bs Hlen left out.
  - destruct bs; [| simpl in Hlen; lia]. simpl. rewrite app_nil_r. reflexivity.
  - destruct bs as [|a [|b [|c rest]]].
    + simpl. rewrite app_nil_r. reflexivity.
    + pair_facts a a. byte_facts. cbn [b64_groups].
      decode_char. decode_char. cbn [a2b_loop]. cbn iota.
      use_facts. simpl. use_facts. rewrite <- ?app_assoc. reflexivity.
    + pair_facts a b. pair_facts b b. byte_facts. cbn [b64_groups].
      decode_char. decode_char. decode_char. cbn [a2b_loop]. cbn iota.
      use_facts. simpl. use_facts.
      rewrite <- ?app_assoc. reflexivity.
    + pair_facts a b. pair_facts b c. pair_facts c c. byte_facts.
      cbn [b64_groups]. decode_char. decode_char. decode_char. decode_char.
      cbn iota. use_facts.
      rewrite IH by (simpl in Hlen; lia).
      rewrite <- ?app_assoc. reflexivity.
Qed.

Lemma b64_char_ascii (v : Z) : (N_of_ascii (b64_char v) < 128)%N.
Proof.
  unfold b64_char.
  destruct (Z.ltb_spec v 26); [|destruct (Z.ltb_spec v 52); [|destruct (Z.ltb_spec v 62);
    [|destruct (Z.eqb_spec v 62)]]];
  rewrite N_ascii_embedding; lia.
Qed.

Lemma b64_groups_ascii (bs : list Byte.byte) :
  forallb (fun c => (N_of_ascii c <? 128)%N) (b64_groups bs) = true.
Proof.
  induction bs as [bs IH] using (induction_ltof1 _ (@length _)).
  destruct bs as [|a [|b [|c rest]]]; cbn [b64_groups forallb];
    rewrite ?andb_true_r; repeat (apply andb_true_intro; split);
    try (apply N.ltb_lt, b64_char_ascii); try reflexivity.
  apply IH. unfold ltof. simpl. lia.
Qed.

(** X8: [base64.b64decode] as the endpoints call it accepts every
    standard base64 text (the one [base64.b64encode] writes, padded with
    [=]) and returns the encoded bytes. *)
Theorem b64decode_b64encode (bs : list Byte.byte) :
  b64decode (string_of_list_ascii (b64_groups bs)) = inr bs.
Proof.
  unfold b64decode. rewrite list_ascii_of_string_of_list_ascii, b64_groups_ascii.
  unfold a2b_base64. apply (a2b_b64_groups_lax_aux (length bs)); lia.
Qed.

End CodecProofs.

Module ExtraProofs.
Import CodeSender App Obs Scenarios BatchProofs.

(** Running computations step by step. *)
Lemma bind_ok {A B} (m : M A) (k : A -> M B) w h ev a :
  m w h = (ev, inr a) ->
  bind m k w h = ((ev ++ fst (k a w (h ++ ev)%list))%list, snd (k a w (h ++ ev)%list)).
Proof. intros E. unfold bind. rewrite E. destruct (k a w (h ++ ev)%list); reflexivity. Qed.

Lemma bind_err {A B} (m : M A) (k : A -> M B) w h ev e :
  m w h = (ev, inl e) -> bind m k w h = (ev, inl e).
Proof. intros E. unfold bind. rewrite E. reflexivity. Qed.

Lemma try_eq {A} (m : M A) w h ev r : m w h = (ev, r) -> try_ m w h = (ev, inr r).
Proof. intros E. unfold try_. rewrite E. reflexivity. Qed.

Lemma fst_bind {A B} (m : M A) (k : A -> M B) w h :
  fst (bind m k w h)
  = (fst (m w h) ++ match snd (m w h) with
                    | inl _ => []
                    | inr a => fst (k a w (h ++ fst (m w h))%list)
                    end)%list.
Proof.
  unfold bind. destruct (m w h) as [ev [e|a]]; cbn; [rewrite app_nil_r; reflexivity|].
  destruct (k a w (h ++ ev)%list); reflexivity.
Qed.

Lemma validate_ok w h :
  w.(w_exists) h TEMPLATE_PATH = true ->
  validate_configuration false w h = ([PathExists TEMPLATE_PATH], inr tt).
Proof.
  intros E. unfold validate_configuration, bind, path_exists, ret. cbn. rewrite E.
  reflexivity.
Qed.

Lemma with_smtp_accepting {A} host port (body : M A) w h :
  relay_accepts w ->
  with_smtp host port body w h
  = ((Connect host port :: fst (body w (h ++ [Connect host port])%list) ++ [Quit; Close])%list,
     snd (body w (h ++ [Connect host port])%list)).
Proof.
  intros Hr. unfold with_smtp, bind, try_, smtp_do, close. rewrite !Hr.
  destruct (body w (h ++ [Connect host port])%list) as [evb [e|a]];
    cbn; rewrite !Hr; cbn; rewrite ?app_nil_r; reflexivity.
Qed.

Lemma kept_single r :
  kept [r] = if PyStr.truthy (to_of r) then [to_of r] else [].
Proof. unfold kept, to_of. cbn [map filter]. destruct (PyStr.truthy _); reflexivity. Qed.

Lemma send_loop_fmt_fails fmt b rs e : forall acc w h,
  (forall t kw, fmt t kw = inl e) ->
  send_loop fmt b rs acc w h
  = ([], match kept rs with [] => inr acc | _ => inl e end).
Proof.
  induction rs as [|r rs IH]; intros [[res s] f] w h Hf; [reflexivity|].
  cbn [send_loop]. rewrite (kept_cons r rs).
  unfold kept at 1. cbn [map filter].
  destruct (PyStr.truthy (PyStr.strip (PyStr.get (email r) ""))) eqn:T.
  - apply bind_err. unfold send_step. cbv zeta iota beta. rewrite T. cbn [negb].
    unfold bind at 1, lift. rewrite Hf. reflexivity.
  - erewrite bind_ok; [| unfold send_step; cbv zeta iota beta; rewrite T; reflexivity].
    rewrite IH by exact Hf. reflexivity.
Qed.

Lemma send_loop_all_sent fmt b rs : forall res s f w h,
  relay_accepts w -> (forall t kw, exists body, fmt t kw = inr body) ->
  snd (send_loop fmt b rs (res, s, f) w h)
  = inr ((res ++ map sent_ok (kept rs))%list, s + length (kept rs), f).
Proof.
  induction rs as [|r rs IH]; intros res s f w h Hr Hf.
  - cbn. rewrite app_nil_r, Nat.add_0_r. reflexivity.
  - cbn [send_loop]. rewrite (kept_cons r rs).
    destruct (PyStr.truthy (to_of r)) eqn:T.
    + destruct (send_step_sent fmt b r res s f w h T (Hf _ _)) as [msg E].
      rewrite Hr in E. erewrite bind_ok by exact E. cbn [snd].
      rewrite IH by assumption. rewrite kept_single, T.
      cbn [map length app]. rewrite <- app_assoc. f_equal. f_equal. f_equal. lia.
    + erewrite bind_ok;
        [| unfold send_step; cbv zeta iota beta; unfold to_of in T; rewrite T; reflexivity].
      fold (to_of r) in T. cbn [snd]. rewrite IH by assumption. rewrite kept_single, T.
      reflexivity.
Qed.

Lemma count_sends_app a b : count_sends (a ++ b) = count_sends a + count_sends b.
Proof. unfold count_sends. rewrite filter_app, length_app. reflexivity. Qed.

Lemma sends_among_app s K a b :
  sends_among s K (a ++ b) = sends_among s K a && sends_among s K b.
Proof. unfold sends_among. apply forallb_app. Qed.

Lemma send_loop_sends fmt b rs K : forall acc w h,
  incl (kept rs) K ->
  count_sends (fst (send_loop fmt b rs acc w h)) <= length (kept rs)
  /\ sends_among b.(b_sender_email) K (fst (send_loop fmt b rs acc w h)) = true.
Proof.
  induction rs as [|r rs IH]; intros acc w h HK; [cbn; split; [lia|reflexivity]|].
  cbn [send_loop]. rewrite fst_bind, count_sends_app, sends_among_app.
  rewrite (kept_cons r rs) in HK |- *. rewrite kept_single in HK |- *.
  assert (Hrest : forall acc' h',
    count_sends (fst (send_loop fmt b rs acc' w h')) <= length (kept rs)
    /\ sends_among b.(b_sender_email) K (fst (send_loop fmt b rs acc' w h')) = true).
  { intros acc' h'. apply IH. intros x Hx. apply HK, in_or_app. right. exact Hx. }
  assert (Hstep : count_sends (fst (send_step fmt b r acc w h))
                  <= length (if PyStr.truthy (to_of r) then [to_of r] else [])
                  /\ sends_among b.(b_sender_email) K (fst (send_step fmt b r acc w h)) = true).
  { destruct (PyStr.truthy (to_of r)) eqn:T.
    - destruct (send_step_events fmt b r acc w h) as [E|[msg E]]; rewrite E;
        [split; cbn; [lia|reflexivity]|].
      assert (Hin : In (to_of r) K) by (apply HK; left; reflexivity).
      unfold count_sends, sends_among.
      destruct (Nat.ltb 1 (b_count b)); cbn -[String.eqb];
        rewrite String.eqb_refl; cbn -[String.eqb];
        (split; [lia|]); rewrite andb_true_r;
        apply existsb_exists; exists (to_of r); split;
        [exact Hin | apply String.eqb_refl | exact Hin | apply String.eqb_refl].
    - destruct acc as [[res s] f]. unfold send_step. cbv zeta iota beta.
      unfold to_of in T. rewrite T. cbn. split; [lia|reflexivity]. }
  destruct Hstep as [H1 H2]. rewrite H2.
  destruct (snd (send_step fmt b r acc w h)) as [e|acc'].
  - cbn. rewrite length_app. split; [lia|reflexivity].
  - destruct (Hrest acc' (h ++ fst (send_step fmt b r acc w h))%list) as [H3 H4].
    rewrite H4, length_app. split; [lia|reflexivity].
Qed.

Lemma path_name_comps p :
  path_name p
  = string_of_list_ascii (last (filter keep_comp (path_comps (list_ascii_of_string p) [])) []).
Proof. reflexivity. Qed.

Lemma path_comps_noslash f : forall cur,
  ~ In "/"%char f -> path_comps f cur = [rev cur ++ f]%list.
Proof.
  induction f as [|c f IH]; intros cur Hn; cbn [path_comps].
  - rewrite app_nil_r. reflexivity.
  - destruct (Ascii.eqb_spec c "/"%char) as [E|E].
    + exfalso. apply Hn. left. exact E.
    + rewrite IH by (intros Hi; apply Hn; right; exact Hi).
      cbn [rev]. rewrite <- app_assoc. reflexivity.
Qed.

Lemma path_comps_slash d : forall cur f,
  exists X, path_comps (d ++ "/"%char :: f)%list cur = (X ++ path_comps f [])%list.
Proof.
  induction d as [|c d IH]; intros cur f; cbn [app path_comps].
  - exists [rev cur]. reflexivity.
  - destruct (Ascii.eqb c "/"%char).
    + destruct (IH [] f) as [X HX]. exists (rev cur :: X). rewrite HX. reflexivity.
    + apply IH.
Qed.

Lemma ascii_list_app s t :
  list_ascii_of_string (s ++ t) = (list_ascii_of_string s ++ list_ascii_of_string t)%list.
Proof. induction s as [|c s IH]; cbn; [reflexivity | rewrite IH; reflexivity]. Qed.

Ltac checks_pass Hm :=
  rewrite first_missing_none;
  [| cbn [forallb fst]; rewrite ?MessageProofs.truthy_true by tauto;
     try reflexivity;
     match goal with |- context [match ?l with [] => _ | _ :: _ => _ end] =>
       destruct l; tauto end].

Ltac open_endpoint Hm Hb :=
  cbv zeta; checks_pass Hm; rewrite Hb;
  unfold validate_configuration, load_email_template, with_smtp, send_one, build_message,
    bind, try_, smtp_do, close, path_exists, read_text, reraise, ret, raise, lift.

(** Runs a handler in a world given by hypotheses on its answers. *)
Ltac world_run :=
  repeat (cbn -[send_loop send_step B64.b64decode first_missing create_greeting
                 Mime.mime_text_html_utf8 Mime.octet_stream_attachment];
   match goal with
   | H : relay_accepts ?w |- context [w_smtp ?w ?h ?ev] => rewrite (H h ev)
   | H : relay_refuses ?w _ _ |- context [w_smtp ?w ?h ?ev] => rewrite (H h ev)
   | H : forall h', w_smtp ?w h' ?ev = _ |- context [w_smtp ?w ?h ?ev] => rewrite (H h)
   | H : template_ok ?w _ |- context [w_exists ?w ?h TEMPLATE_PATH] => rewrite (proj1 (H h))
   | H : template_ok ?w _ |- context [w_read_text ?w ?h TEMPLATE_PATH] => rewrite (proj2 (H h))
   | H : forall kw, ?f ?t kw = inl _ |- context [?f ?t ?kw] => rewrite (H kw)
   | H : forall kw, exists b, ?f ?t kw = inr b |- context [?f ?t ?kw] =>
       let b := fresh "body" in let E := fresh "E" in
       destruct (H kw) as [b E]; rewrite E
   | |- context [match ?l with [] => _ | _ :: _ => _ end] =>
       match type of l with list Byte.byte => destruct l end
   end).

(** Runs a handler in an arbitrary world, one case per answer. *)
Ltac run_all fmt :=
  repeat (cbn -[send_loop B64.b64decode first_missing create_greeting
                 Mime.mime_text_html_utf8 Mime.octet_stream_attachment String.eqb
                 PyStr.strip count_sends sends_only sends_among];
    match goal with
    | |- context [w_exists ?w ?h ?p] => destruct (w_exists w h p)
    | |- context [w_read_text ?w ?h ?p] => destruct (w_read_text w h p)
    | |- context [w_smtp ?w ?h ?ev] => destruct (w_smtp w h ev)
    | |- context [kind ?e] => destruct (kind e)
    | |- context [is_smtp_exception ?e] => destruct (is_smtp_exception e)
    | |- context [fmt ?t ?kw] => destruct (fmt t kw)
    | |- context [match ?l with [] => _ | _ :: _ => _ end] =>
        match type of l with list Byte.byte => destruct l end
    | |- context [send_loop ?f ?b ?rs ?acc ?w ?h] =>
        let L := fresh "L" in let L1 := fresh "L" in let L2 := fresh "L" in
        pose proof (send_loop_sends f b rs (kept rs) acc w h (incl_refl _)) as L;
        destruct (send_loop f b rs acc w h) as [evl [el|[[rl sl] fl]]]; cbn [fst] in L;
        destruct L as [L1 L2]
    end).

Ltac close_sends :=
  split; [unfold count_sends; cbn; lia
         | unfold sends_only; cbn -[String.eqb]; rewrite ?String.eqb_refl; reflexivity].

Ltac fields_present :=
  unfold batch_field_missing, single_field_missing, test_field_missing, recipients_of;
  vm_compute; intuition discriminate.








(** X6: without attachment bytes, an existing attachment path is read
    once; the message gets the HTML part and one attachment part whose
    Content-Disposition names [Path(path).name] and whose decoded payload
    is exactly the bytes read. *)
Theorem build_message_path_attachment sender to_email subject body path data fname w h bs :
  no_data data -> path <> "" -> w.(w_exists) h path = true ->
  w.(w_read_bytes) (h ++ [PathExists path])%list path = inr bs ->
  exists msg,
    build_message sender to_email subject body (Some path) data fname w h
    = ([PathExists path; ReadBytes path], inr msg)
    /\ msg.(Mime.m_headers) = Mime.multipart_headers sender to_email subject
    /\ exists att,
         msg.(Mime.m_parts) = [Mime.mime_text_html_utf8 body; att]
         /\ Mime.get_header att.(Mime.p_headers) "Content-Disposition"
            = Some ("attachment; filename=" ++ Mime.quoted (path_name path))
         /\ Mime.get_payload_decoded att = bs.
Proof.
  intros Hd Hp He Hr.
  assert (Hb : forall d, no_data d ->
    build_message sender to_email subject body (Some path) d fname w h =
    build_message sender to_email subject body (Some path) None fname w h)
    by (intros d [-> | ->]; reflexivity).
  rewrite (Hb data Hd). unfold build_message.
  rewrite (MessageProofs.truthy_true path Hp).
  unfold bind, path_exists, read_bytes, ret. rewrite He. cbn [negb]. rewrite Hr.
  eexists. split; [reflexivity|]. split; [reflexivity|].
  eexists. split; [reflexivity|]. split; [reflexivity|].
  apply MessageProofs.payload_octet_stream.
Qed.

Lemma build_message_path_attachment_witness :
  exists msg,
    build_message "me@example.com" "hr@acme.com" "Application" "<p>Hi</p>"
      (Some "docs/cv.pdf") (Some []) None world_files []
    = ([PathExists "docs/cv.pdf"; ReadBytes "docs/cv.pdf"], inr msg)
    /\ msg.(Mime.m_headers) = Mime.multipart_headers "me@example.com" "hr@acme.com" "Application"
    /\ exists att,
         msg.(Mime.m_parts) = [Mime.mime_text_html_utf8 "<p>Hi</p>"; att]
         /\ Mime.get_header att.(Mime.p_headers) "Content-Disposition"
            = Some ("attachment; filename=" ++ Mime.quoted (path_name "docs/cv.pdf"))
         /\ Mime.get_payload_decoded att = [Byte.x25; Byte.x50; Byte.x44; Byte.x46].
Proof.
  apply build_message_path_attachment;
    [right; reflexivity | discriminate | reflexivity | reflexivity].
Defined.

(** X7: [Path(p).name] is the last component: for a name [f] without
    "/" other than "" and ".", the name of "d/f" is [f] whatever the
    directory part [d], and the name of [f] itself is [f]. *)
Theorem path_name_last_component d f :
  f <> "" -> f <> "." -> ~ In "/"%char (list_ascii_of_string f) ->
  path_name (d ++ "/" ++ f) = f /\ path_name f = f.
Proof.
  intros Hf Hd Hn.
  assert (Hk : keep_comp (list_ascii_of_string f) = true).
  { destruct f as [|c f']; [congruence|]. cbn [list_ascii_of_string].
    destruct f' as [|c' f''];
      destruct c as [[] [] [] [] [] [] [] []]; try reflexivity; congruence. }
  split; rewrite path_name_comps.
  - rewrite !ascii_list_app. cbn [list_ascii_of_string app].
    destruct (path_comps_slash (list_ascii_of_string d) [] (list_ascii_of_string f)) as [X HX].
    rewrite HX, (path_comps_noslash _ [] Hn). cbn [rev app].
    rewrite filter_app. cbn [filter]. rewrite Hk. rewrite last_last.
    apply string_of_list_ascii_of_string.
  - rewrite (path_comps_noslash _ [] Hn). cbn [rev app filter]. rewrite Hk.
    apply string_of_list_ascii_of_string.
Qed.

Lemma path_name_last_component_witness :
  path_name ("/home/sam/docs" ++ "/" ++ "cv.pdf") = "cv.pdf" /\ path_name "cv.pdf" = "cv.pdf".
Proof.
  apply path_name_last_component; [discriminate | discriminate |].
  cbn. intuition discriminate.
Defined.



(** X10: on every endpoint, once the required fields are present, an
    attachment payload that [base64.b64decode] rejects with message [m]
    gets the 400 answer "Invalid PDF file data: <m>" before any file or
    relay access. *)
Theorem invalid_pdf_rejected fmt data w h m :
  B64.b64decode (PyStr.get data.(rq_pdf_file) "") = inl m ->
  (~ batch_field_missing data ->
   send_emails fmt data w h = ([], inr (error_response 400 ("Invalid PDF file data: " ++ m))))
  /\ (~ single_field_missing data ->
      send_single_email fmt data w h
      = ([], inr (failure_response 400 ("Invalid PDF file data: " ++ m))))
  /\ (~ test_field_missing data ->
      test_email fmt data w h = ([], inr (error_response 400 ("Invalid PDF file data: " ++ m)))).
Proof.
  intros Hb. split; [|split]; intros Hm.
  - unfold batch_field_missing, recipients_of in Hm.
    unfold send_emails, catch_unexpected. cbv zeta. checks_pass Hm. rewrite Hb. reflexivity.
  - unfold single_field_missing in Hm.
    unfold send_single_email, catch_unexpected. cbv zeta. checks_pass Hm. rewrite Hb.
    reflexivity.
  - unfold test_field_missing in Hm.
    unfold test_email, catch_unexpected. cbv zeta. checks_pass Hm. rewrite Hb. reflexivity.
Qed.

Lemma invalid_pdf_rejected_witness :
  send_emails fmt_plain (full_request "TWF") world_ok []
    = ([], inr (error_response 400 ("Invalid PDF file data: " ++ "Incorrect padding")))
  /\ send_single_email fmt_plain (full_request "TWF") world_ok []
     = ([], inr (failure_response 400 ("Invalid PDF file data: " ++ "Incorrect padding")))
  /\ test_email fmt_plain (full_request "TWF") world_ok []
     = ([], inr (error_response 400 ("Invalid PDF file data: " ++ "Incorrect padding"))).
Proof.
  destruct (invalid_pdf_rejected fmt_plain (full_request "TWF") world_ok [] "Incorrect padding")
    as [H1 [H2 H3]]; [vm_compute; reflexivity|].
  split; [apply H1 | split; [apply H2 | apply H3]]; fields_present.
Defined.

(** X11: on every endpoint, with valid fields and payload, a missing
    template file gets the 500 answer "Configuration error: Email template
    not found: email_template.html" after the existence check alone: the
    template is not read and the relay is not contacted. *)
Theorem missing_template_config_error fmt data w h pdf :
  B64.b64decode (PyStr.get data.(rq_pdf_file) "") = inr pdf ->
  w.(w_exists) h TEMPLATE_PATH = false ->
  (~ batch_field_missing data ->
   send_emails fmt data w h
   = ([PathExists TEMPLATE_PATH],
      inr (error_response 500 ("Configuration error: Email template not found: "
                               ++ TEMPLATE_PATH))))
  /\ (~ single_field_missing data ->
      send_single_email fmt data w h
      = ([PathExists TEMPLATE_PATH],
         inr (failure_response 500 ("Configuration error: Email template not found: "
                                    ++ TEMPLATE_PATH))))
  /\ (~ test_field_missing data ->
      test_email fmt data w h
      = ([PathExists TEMPLATE_PATH],
         inr (error_response 500 ("Configuration error: Email template not found: "
                                  ++ TEMPLATE_PATH)))).
Proof.
  intros Hb He. split; [|split]; intros Hm.
  - unfold batch_field_missing, recipients_of in Hm.
    unfold send_emails, catch_unexpected. cbv zeta. checks_pass Hm. rewrite Hb.
    unfold validate_configuration, bind, try_, path_exists, ret, raise. cbn.
    rewrite He. reflexivity.
  - unfold single_field_missing in Hm.
    unfold send_single_email, catch_unexpected. cbv zeta. checks_pass Hm. rewrite Hb.
    unfold validate_configuration, bind, try_, path_exists, ret, raise. cbn.
    rewrite He. reflexivity.
  - unfold test_field_missing in Hm.
    unfold test_email, catch_unexpected. cbv zeta. checks_pass Hm. rewrite Hb.
    unfold validate_configuration, bind, try_, path_exists, ret, raise. cbn.
    rewrite He. reflexivity.
Qed.

Lemma missing_template_config_error_witness :
  send_emails fmt_plain (full_request "TWFu") world_empty []
    = ([PathExists TEMPLATE_PATH],
       inr (error_response 500 ("Configuration error: Email template not found: "
                                ++ TEMPLATE_PATH)))
  /\ send_single_email fmt_plain (full_request "TWFu") world_empty []
     = ([PathExists TEMPLATE_PATH],
        inr (failure_response 500 ("Configuration error: Email template not found: "
                                   ++ TEMPLATE_PATH)))
  /\ test_email fmt_plain (full_request "TWFu") world_empty []
     = ([PathExists TEMPLATE_PATH],
        inr (error_response 500 ("Configuration error: Email template not found: "
                                 ++ TEMPLATE_PATH))).
Proof.
  destruct (missing_template_config_error fmt_plain (full_request "TWFu") world_empty []
              [Byte.x4d; Byte.x61; Byte.x6e]) as [H1 [H2 H3]];
    [vm_compute; reflexivity | reflexivity |].
  split; [apply H1 | split; [apply H2 | apply H3]]; fields_present.
Defined.

(** X12: on every endpoint, when the template passes the configuration
    check but [load_email_template] then fails with [e] (the file is gone
    by then, or cannot be read), the answer is the 500 "Template loading
    error: <e>", and the relay is not contacted. *)
Theorem template_loading_error fmt data w h pdf ev e :
  B64.b64decode (PyStr.get data.(rq_pdf_file) "") = inr pdf ->
  w.(w_exists) h TEMPLATE_PATH = true ->
  load_email_template TEMPLATE_PATH w (h ++ [PathExists TEMPLATE_PATH])%list = (ev, inl e) ->
  (~ batch_field_missing data ->
   send_emails fmt data w h
   = (PathExists TEMPLATE_PATH :: ev,
      inr (error_response 500 ("Template loading error: " ++ e.(text)))))
  /\ (~ single_field_missing data ->
      send_single_email fmt data w h
      = (PathExists TEMPLATE_PATH :: ev,
         inr (failure_response 500 ("Template loading error: " ++ e.(text)))))
  /\ (~ test_field_missing data ->
      test_email fmt data w h
      = (PathExists TEMPLATE_PATH :: ev,
         inr (error_response 500 ("Template loading error: " ++ e.(text))))).
Proof.
  intros Hb He Hl. split; [|split]; intros Hm;
    [unfold batch_field_missing, recipients_of in Hm;
     unfold send_emails, catch_unexpected
    |unfold single_field_missing in Hm; unfold send_single_email, catch_unexpected
    |unfold test_field_missing in Hm; unfold test_email, catch_unexpected];
    cbv zeta; checks_pass Hm; rewrite Hb;
    (erewrite bind_ok;
     [| apply try_eq; erewrite bind_ok; [| apply try_eq, validate_ok, He];
        cbv beta iota; erewrite bind_ok; [| apply try_eq, Hl]; reflexivity]);
    cbn; rewrite ?app_nil_r; reflexivity.
Qed.

Lemma template_loading_error_witness :
  send_emails fmt_plain (full_request "TWFu") world_template_vanishes []
    = ([PathExists TEMPLATE_PATH; PathExists TEMPLATE_PATH],
       inr (error_response 500
              ("Template loading error: " ++ "Email template not found: " ++ TEMPLATE_PATH)))
  /\ send_single_email fmt_plain (full_request "TWFu") world_template_vanishes []
     = ([PathExists TEMPLATE_PATH; PathExists TEMPLATE_PATH],
        inr (failure_response 500
               ("Template loading error: " ++ "Email template not found: " ++ TEMPLATE_PATH)))
  /\ test_email fmt_plain (full_request "TWFu") world_template_vanishes []
     = ([PathExists TEMPLATE_PATH; PathExists TEMPLATE_PATH],
        inr (error_response 500
               ("Template loading error: " ++ "Email template not found: " ++ TEMPLATE_PATH))).
Proof.
  destruct (template_loading_error fmt_plain (full_request "TWFu") world_template_vanishes []
              [Byte.x4d; Byte.x61; Byte.x6e] [PathExists TEMPLATE_PATH]
              (mkExn FileNotFoundError ("Email template not found: " ++ TEMPLATE_PATH)))
    as [H1 [H2 H3]]; [vm_compute; reflexivity | reflexivity | reflexivity |].
  split; [apply H1 | split; [apply H2 | apply H3]]; fields_present.
Defined.

(** X13: in the batch, a template that [str.format] rejects (e.g. a
    placeholder without argument, [KeyError]) aborts the whole batch once
    the session is open: the first non-skipped recipient raises, QUIT is
    sent and the socket closed, nothing is submitted, and the answer is
    the 500 "Unexpected error: <e>" without any result. *)
Theorem batch_format_failure_aborts fmt data w h tpl pdf e :
  ~ batch_field_missing data ->
  B64.b64decode (PyStr.get data.(rq_pdf_file) "") = inr pdf ->
  template_ok w tpl -> relay_accepts w ->
  (forall t kw, fmt t kw = inl e) -> is_smtp_exception e = false ->
  kept (recipients_of data) <> [] ->
  send_emails fmt data w h
  = ([PathExists TEMPLATE_PATH; PathExists TEMPLATE_PATH; ReadText TEMPLATE_PATH;
      Connect SMTP_SERVER SMTP_PORT; Ehlo; Starttls;
      Login (field data.(rq_sender_email)) (field data.(rq_app_password)); Quit; Close],
     inr (error_response 500 ("Unexpected error: " ++ e.(text)))).
Proof.
  intros Hm Hb Ht Hr Hf Hs Hk.
  unfold batch_field_missing, recipients_of in Hm. unfold recipients_of in Hk.
  unfold send_emails, catch_unexpected. cbv zeta. checks_pass Hm. rewrite Hb.
  unfold validate_configuration, load_email_template, with_smtp, bind, try_, smtp_do, close,
    path_exists, read_text, reraise, ret, raise, lift.
  world_run. rewrite (send_loop_fmt_fails _ _ _ e) by exact Hf.
  destruct (kept _) as [|x xs]; [congruence|].
  world_run. rewrite Hs. reflexivity.
Qed.

Lemma batch_format_failure_aborts_witness :
  send_emails fmt_missing_key (full_request "TWFu") world_ok []
  = ([PathExists TEMPLATE_PATH; PathExists TEMPLATE_PATH; ReadText TEMPLATE_PATH;
      Connect SMTP_SERVER SMTP_PORT; Ehlo; Starttls; Login "me@example.com" "secret";
      Quit; Close],
     inr (error_response 500 ("Unexpected error: " ++ "'company'"))).
Proof.
  apply (batch_format_failure_aborts fmt_missing_key (full_request "TWFu") world_ok []
           "<p>Dear team</p>" [Byte.x4d; Byte.x61; Byte.x6e]
           (mkExn OtherError "'company'")).
  - fields_present.
  - vm_compute. reflexivity.
  - intros h. split; reflexivity.
  - intros h ev. reflexivity.
  - intros t kw. reflexivity.
  - reflexivity.
  - vm_compute. discriminate.
Defined.

(** X14: when the template loads, [str.format] succeeds and the relay
    accepts every command, the batch answers 200 with one "success"
    result ("Email sent successfully") per non-skipped recipient, in input
    order, a success count equal to their number, no failure, and the
    total of the input list. *)
Theorem batch_all_accepted fmt data w h tpl pdf :
  ~ batch_field_missing data ->
  B64.b64decode (PyStr.get data.(rq_pdf_file) "") = inr pdf ->
  template_ok w tpl -> relay_accepts w ->
  (forall t kw, exists body, fmt t kw = inr body) ->
  snd (send_emails fmt data w h)
  = inr (batch_response (map sent_ok (kept (recipients_of data)))
           (length (kept (recipients_of data))) 0 (length (recipients_of data))).
Proof.
  intros Hm Hb Ht Hr Hf.
  unfold batch_field_missing, recipients_of in Hm. unfold recipients_of.
  unfold send_emails, catch_unexpected. cbv zeta. checks_pass Hm. rewrite Hb.
  unfold validate_configuration, load_email_template, with_smtp, bind, try_, smtp_do, close,
    path_exists, read_text, reraise, ret, raise, lift.
  world_run.
  match goal with |- context [send_loop ?f ?b ?rs ?acc ?w ?h] =>
    pose proof (send_loop_all_sent f b rs [] 0 0 w h Hr Hf) as L;
    destruct (send_loop f b rs acc w h) as [evl rl]; cbn [snd] in L; subst rl
  end.
  world_run. reflexivity.
Qed.

Lemma batch_all_accepted_witness :
  snd (send_emails fmt_plain (full_request "TWFu") world_ok [])
  = inr (batch_response [sent_ok "hr@acme.com"] 1 0 1).
Proof.
  apply (batch_all_accepted fmt_plain (full_request "TWFu") world_ok [] "<p>Dear team</p>"
           [Byte.x4d; Byte.x61; Byte.x6e]).
  - fields_present.
  - vm_compute. reflexivity.
  - intros h. split; reflexivity.
  - intros h ev. reflexivity.
  - intros t kw. eexists. reflexivity.
Defined.

(** X15: in the batch, a connection the relay refuses ends the request
    right after the connection attempt: an SMTP exception gets the 500
    "SMTP error: <e>", any other exception (e.g. [ConnectionRefusedError],
    an [OSError]) escapes the SMTP handler and gets the 500 "Unexpected
    error: <e>". *)
Theorem batch_connect_refused fmt data w h tpl pdf e :
  ~ batch_field_missing data ->
  B64.b64decode (PyStr.get data.(rq_pdf_file) "") = inr pdf ->
  template_ok w tpl ->
  (forall h', w.(w_smtp) h' (Connect SMTP_SERVER SMTP_PORT) = Some e) ->
  send_emails fmt data w h
  = ([PathExists TEMPLATE_PATH; PathExists TEMPLATE_PATH; ReadText TEMPLATE_PATH;
      Connect SMTP_SERVER SMTP_PORT],
     inr (error_response 500
            ((if is_smtp_exception e then "SMTP error: " else "Unexpected error: ")
             ++ e.(text)))).
Proof.
  intros Hm Hb Ht Hc.
  unfold batch_field_missing, recipients_of in Hm.
  unfold send_emails, catch_unexpected. cbv zeta. checks_pass Hm. rewrite Hb.
  unfold validate_configuration, load_email_template, with_smtp, bind, try_, smtp_do, close,
    path_exists, read_text, reraise, ret, raise, lift.
  world_run. destruct (is_smtp_exception e); reflexivity.
Qed.

Lemma batch_connect_refused_witness :
  send_emails fmt_plain (full_request "TWFu") (relay_fails_at OpenConnect refused) []
  = ([PathExists TEMPLATE_PATH; PathExists TEMPLATE_PATH; ReadText TEMPLATE_PATH;
      Connect SMTP_SERVER SMTP_PORT],
     inr (error_response 500 ("Unexpected error: " ++ "[Errno 111] Connection refused"))).
Proof.
  apply (batch_connect_refused fmt_plain (full_request "TWFu")
           (relay_fails_at OpenConnect refused) [] "<p>Dear team</p>"
           [Byte.x4d; Byte.x61; Byte.x6e] refused).
  - fields_present.
  - vm_compute. reflexivity.
  - intros h. split; reflexivity.
  - intros h'. reflexivity.
Defined.

(** X16: the single and test endpoints format the template before
    connecting: when [str.format] raises [e], the answer is the 500
    "Unexpected error: <e>" and the relay is never contacted. *)
Theorem single_test_format_failure fmt data w h tpl pdf e :
  B64.b64decode (PyStr.get data.(rq_pdf_file) "") = inr pdf ->
  template_ok w tpl -> (forall kw, fmt tpl kw = inl e) ->
  (~ single_field_missing data ->
   send_single_email fmt data w h
   = ([PathExists TEMPLATE_PATH; PathExists TEMPLATE_PATH; ReadText TEMPLATE_PATH],
      inr (failure_response 500 ("Unexpected error: " ++ e.(text)))))
  /\ (~ test_field_missing data ->
      test_email fmt data w h
      = ([PathExists TEMPLATE_PATH; PathExists TEMPLATE_PATH; ReadText TEMPLATE_PATH],
         inr (error_response 500 ("Unexpected error: " ++ e.(text))))).
Proof.
  intros Hb Ht Hf. split; intros Hm;
    [unfold single_field_missing in Hm; unfold send_single_email, catch_unexpected
    |unfold test_field_missing in Hm; unfold test_email, catch_unexpected];
    open_endpoint Hm Hb; world_run; reflexivity.
Qed.

Lemma single_test_format_failure_witness :
  send_single_email fmt_missing_key (full_request "TWFu") world_ok []
  = ([PathExists TEMPLATE_PATH; PathExists TEMPLATE_PATH; ReadText TEMPLATE_PATH],
     inr (failure_response 500 ("Unexpected error: " ++ "'company'")))
  /\ test_email fmt_missing_key (full_request "TWFu") world_ok []
     = ([PathExists TEMPLATE_PATH; PathExists TEMPLATE_PATH; ReadText TEMPLATE_PATH],
        inr (error_response 500 ("Unexpected error: " ++ "'company'"))).
Proof.
  destruct (single_test_format_failure fmt_missing_key (full_request "TWFu") world_ok []
              "<p>Dear team</p>" [Byte.x4d; Byte.x61; Byte.x6e]
              (mkExn OtherError "'company'")) as [H1 H2];
    [vm_compute; reflexivity | intros h; split; reflexivity | intros kw; reflexivity |].
  split; [apply H1 | apply H2]; fields_present.
Defined.

(** X17: on the single and test endpoints, when the relay refuses one of
    the steps that open the session with [e] (whatever its kind) and
    accepts the rest, the answer is the 500 "Failed to send email: <e>"
    and no message is submitted. *)
Theorem single_test_open_failure fmt data w h tpl pdf st e :
  B64.b64decode (PyStr.get data.(rq_pdf_file) "") = inr pdf ->
  template_ok w tpl -> relay_refuses w st e ->
  (forall kw, exists body, fmt tpl kw = inr body) ->
  (~ single_field_missing data ->
   snd (send_single_email fmt data w h)
   = inr (failure_response 500 ("Failed to send email: " ++ e.(text)))
   /\ no_send (fst (send_single_email fmt data w h)) = true)
  /\ (~ test_field_missing data ->
      snd (test_email fmt data w h)
      = inr (error_response 500 ("Failed to send email: " ++ e.(text)))
      /\ no_send (fst (test_email fmt data w h)) = true).
Proof.
  intros Hb Ht Hr Hf. split; intros Hm;
    [unfold single_field_missing in Hm; unfold send_single_email, catch_unexpected
    |unfold test_field_missing in Hm; unfold test_email, catch_unexpected];
    open_endpoint Hm Hb; destruct st; world_run; split; reflexivity.
Qed.

Lemma single_test_open_failure_witness :
  (snd (send_single_email fmt_plain (full_request "TWFu") (relay_fails_at OpenLogin rejected) [])
   = inr (failure_response 500 ("Failed to send email: " ++ "550 Mailbox unavailable"))
   /\ no_send (fst (send_single_email fmt_plain (full_request "TWFu")
                      (relay_fails_at OpenLogin rejected) [])) = true)
  /\ (snd (test_email fmt_plain (full_request "TWFu") (relay_fails_at OpenLogin rejected) [])
      = inr (error_response 500 ("Failed to send email: " ++ "550 Mailbox unavailable"))
      /\ no_send (fst (test_email fmt_plain (full_request "TWFu")
                         (relay_fails_at OpenLogin rejected) [])) = true).
Proof.
  destruct (single_test_open_failure fmt_plain (full_request "TWFu")
              (relay_fails_at OpenLogin rejected) [] "<p>Dear team</p>"
              [Byte.x4d; Byte.x61; Byte.x6e] OpenLogin rejected) as [H1 H2];
    [vm_compute; reflexivity | intros h; split; reflexivity | intros h ev; reflexivity
    | intros kw; eexists; reflexivity |].
  split; [apply H1 | apply H2]; fields_present.
Defined.

(** X18: on the single and test endpoints, when the template loads,
    [str.format] succeeds and the relay accepts every command, the
    session is opened (EHLO, STARTTLS, login with the sender's
    credentials), exactly one message is submitted from the sender to the
    requested address, QUIT is sent and the socket closed, and the answer
    is {success: true, message: "... sent successfully to <address>"}. *)
Theorem single_test_success fmt data w h tpl pdf :
  B64.b64decode (PyStr.get data.(rq_pdf_file) "") = inr pdf ->
  template_ok w tpl -> relay_accepts w ->
  (forall kw, exists body, fmt tpl kw = inr body) ->
  (~ single_field_missing data ->
   exists msg, send_single_email fmt data w h
   = ([PathExists TEMPLATE_PATH; PathExists TEMPLATE_PATH; ReadText TEMPLATE_PATH;
       Connect SMTP_SERVER SMTP_PORT; Ehlo; Starttls;
       Login (field data.(rq_sender_email)) (field data.(rq_app_password));
       Sendmail (field data.(rq_sender_email)) [single_to data] msg; Quit; Close],
      inr (200%Z, JObj [("success", JBool true);
                        ("message", JStr ("Email sent successfully to " ++ single_to data))])))
  /\ (~ test_field_missing data ->
      exists msg, test_email fmt data w h
      = ([PathExists TEMPLATE_PATH; PathExists TEMPLATE_PATH; ReadText TEMPLATE_PATH;
          Connect SMTP_SERVER SMTP_PORT; Ehlo; Starttls;
          Login (field data.(rq_sender_email)) (field data.(rq_app_password));
          Sendmail (field data.(rq_sender_email)) [field data.(rq_email)] msg; Quit; Close],
         inr (200%Z, JObj [("success", JBool true);
                           ("message", JStr ("Test email sent successfully to "
                                             ++ field data.(rq_email)))]))).
Proof.
  intros Hb Ht Hr Hf. split; intros Hm;
    [unfold single_field_missing in Hm; unfold send_single_email, catch_unexpected, single_to
    |unfold test_field_missing in Hm; unfold test_email, catch_unexpected];
    open_endpoint Hm Hb; world_run; eexists; reflexivity.
Qed.

Lemma single_test_success_witness :
  (exists msg, send_single_email fmt_plain (full_request "TWFu") world_ok []
   = ([PathExists TEMPLATE_PATH; PathExists TEMPLATE_PATH; ReadText TEMPLATE_PATH;
       Connect SMTP_SERVER SMTP_PORT; Ehlo; Starttls; Login "me@example.com" "secret";
       Sendmail "me@example.com" ["hr@acme.com"] msg; Quit; Close],
      inr (200%Z, JObj [("success", JBool true);
                        ("message", JStr ("Email sent successfully to " ++ "hr@acme.com"))])))
  /\ (exists msg, test_email fmt_plain (full_request "TWFu") world_ok []
      = ([PathExists TEMPLATE_PATH; PathExists TEMPLATE_PATH; ReadText TEMPLATE_PATH;
          Connect SMTP_SERVER SMTP_PORT; Ehlo; Starttls; Login "me@example.com" "secret";
          Sendmail "me@example.com" ["hr@acme.com"] msg; Quit; Close],
         inr (200%Z, JObj [("success", JBool true);
                           ("message", JStr ("Test email sent successfully to "
                                             ++ "hr@acme.com"))]))).
Proof.
  destruct (single_test_success fmt_plain (full_request "TWFu") world_ok [] "<p>Dear team</p>"
              [Byte.x4d; Byte.x61; Byte.x6e]) as [H1 H2];
    [vm_compute; reflexivity | intros h; split; reflexivity | intros h ev; reflexivity
    | intros kw; eexists; reflexivity |].
  split; [apply H1 | apply H2]; fields_present.
Defined.

(** X19: whatever the request and whatever the file system and the relay
    answer, the single and test endpoints submit at most one message, and
    only from the sender address to the one requested address. *)
Theorem single_test_one_message fmt data w h :
  (count_sends (fst (send_single_email fmt data w h)) <= 1
   /\ sends_only (field data.(rq_sender_email)) (single_to data)
        (fst (send_single_email fmt data w h)) = true)
  /\ (count_sends (fst (test_email fmt data w h)) <= 1
      /\ sends_only (field data.(rq_sender_email)) (field data.(rq_email))
           (fst (test_email fmt data w h)) = true).
Proof.
  split.
  - unfold send_single_email, catch_unexpected, single_to. cbv zeta.
    destruct (first_missing _); [close_sends|].
    destruct (B64.b64decode _) as [m|pdf]; [close_sends|].
    unfold validate_configuration, load_email_template, with_smtp, send_one, build_message,
      bind, try_, smtp_do, close, path_exists, read_text, reraise, ret, raise, lift.
    run_all fmt; close_sends.
  - unfold test_email, catch_unexpected. cbv zeta.
    destruct (first_missing _); [close_sends|].
    destruct (B64.b64decode _) as [m|pdf]; [close_sends|].
    unfold validate_configuration, load_email_template, with_smtp, send_one, build_message,
      bind, try_, smtp_do, close, path_exists, read_text, reraise, ret, raise, lift.
    run_all fmt; close_sends.
Qed.

(** X20: whatever the request and whatever the file system and the relay
    answer, the batch submits at most one message per non-skipped
    recipient, each from the sender address to a single address taken
    from the trimmed, non-empty addresses of the request. *)
Theorem batch_sends_bounded fmt data w h :
  count_sends (fst (send_emails fmt data w h)) <= length (kept (recipients_of data))
  /\ sends_among (field data.(rq_sender_email)) (kept (recipients_of data))
       (fst (send_emails fmt data w h)) = true.
Proof.
  unfold send_emails, catch_unexpected, recipients_of. cbv zeta.
  destruct (first_missing _); [cbn; split; [lia|reflexivity]|].
  destruct (B64.b64decode _) as [m|pdf]; [cbn; split; [lia|reflexivity]|].
  unfold validate_configuration, load_email_template, with_smtp,
    bind, try_, smtp_do, close, path_exists, read_text, reraise, ret, raise, lift.
  run_all fmt;
  unfold count_sends, sends_among in *;
  do 2 (cbn -[String.eqb PyStr.strip];
        rewrite ?app_nil_r, ?filter_app, ?length_app, ?forallb_app, ?L1);
  cbn -[String.eqb PyStr.strip]; split; try lia; try reflexivity;
  match goal with H : forallb _ _ = true |- _ => cbn -[String.eqb PyStr.strip] in H end;
  rewrite andb_true_r; assumption.
Qed.

End ExtraProofs.
